(** * SPARQL Burger: a shallow embedding of the query builder

    The development follows the two Python modules of the library:
    [SPARQLSyntaxTerms] (the term classes and [in_brackets]) and
    [SPARQLQueryBuilder] (graph patterns, select and update queries).

    Python is dynamically typed, and the builder relies on it: lists such
    as [self.graph] hold objects of several classes and [get_text]
    dispatches on [type(entry)]; a method call on an object that lacks the
    method raises, every [get_text] wraps its body in [try/except] and a
    graph pattern answers [False] when a nested child yields a falsy text.
    The embedding therefore keeps one universe of Python objects, a small
    monad for the three ways a block of statements can end (fall through,
    [return], raise) and one recursive [get_text] that plays the role of
    the dynamic method lookup. *)

From Stdlib Require Import String Ascii List ZArith Bool Lia DecimalString.
Import ListNotations.

#[local] Set Warnings "-register-all".
#[local] Open Scope string_scope.
#[local] Open Scope Z_scope.

(** ** Python string primitives used by the library *)

(** The one-character string written ["\n"] in the source. *)
Definition LF : string := String (ascii_of_nat 10) EmptyString.

Module Py.

Fixpoint repeat_str (n : nat) (s : string) : string :=
  match n with
  | O => ""
  | S k => s ++ repeat_str k s
  end.

(** [n * s]: the string [s] repeated [n] times, empty for [n <= 0]. *)
Definition mul (n : Z) (s : string) : string := repeat_str (Z.to_nat n) s.

(** [sep.join(parts)] *)
Definition join (sep : string) (parts : list string) : string :=
  String.concat sep parts.

(** [s.startswith(p)] *)
Definition startswith (s p : string) : bool := String.prefix p s.

(** [s[:-1]]: all characters but the last; the empty string stays empty. *)
Fixpoint drop_last (s : string) : string :=
  match s with
  | EmptyString => EmptyString
  | String c rest =>
      match rest with
      | EmptyString => EmptyString
      | String _ _ => String c (drop_last rest)
      end
  end.

(** [str(n)] for an integer: decimal digits, with a minus sign if negative. *)
Definition str_of_int (n : Z) : string := NilZero.string_of_int (Z.to_int n).

End Py.

(** ** The object universe

    Built-in values ([None], booleans, integers, strings, lists) and one
    constructor per class of the library.  Attributes documented as
    [<str>] are strings here; attributes on which the code dispatches by
    run-time type, or on which it calls [get_text], are objects.  The
    attributes of the three composite classes are plain Python attributes:
    the [add_*] and [set_*] methods check what they store, an assignment
    does not. *)

(** [limit] of a select query: the default [False], or an integer. *)
Inductive py_limit : Type :=
| LimitFalse
| LimitInt (n : Z).

Inductive pyobj : Type :=
| PyNone
| PyBool (b : bool)
| PyInt (n : Z)
| PyStr (s : string)
| PyList (items : list pyobj)
| Prefix (prefix namespace : string)
| Triple (subject predicate object : string)
| Filter (expression : string)
| Having (expression : string)
| Binding (value : pyobj) (variable : string)
| Bound (variable : pyobj)
| IfClause (condition true_value false_value : pyobj)
| GroupBy (variables : list string)
| Values (values : list string) (name : string)
| Pattern (p : SPARQLGraphPattern)
| Select (q : SPARQLSelectQuery)
| Update (u : SPARQLUpdateQuery)

with SPARQLGraphPattern : Type :=
| Build_SPARQLGraphPattern
    (is_optional is_union : bool)
    (graph filters bindings values : list pyobj)

with SPARQLSelectQuery : Type :=
| Build_SPARQLSelectQuery
    (prefixes : list pyobj) (where_ : pyobj)
    (distinct : bool) (limit : py_limit)
    (variables : list string) (group_by : list pyobj)

with SPARQLUpdateQuery : Type :=
| Build_SPARQLUpdateQuery
    (prefixes : list pyobj) (where_ delete insert : pyobj).

(** Attribute access. *)

Definition is_optional (self : SPARQLGraphPattern) : bool :=
  let '(Build_SPARQLGraphPattern o _ _ _ _ _) := self in o.
Definition is_union (self : SPARQLGraphPattern) : bool :=
  let '(Build_SPARQLGraphPattern _ u _ _ _ _) := self in u.
Definition graph (self : SPARQLGraphPattern) : list pyobj :=
  let '(Build_SPARQLGraphPattern _ _ g _ _ _) := self in g.
Definition filters (self : SPARQLGraphPattern) : list pyobj :=
  let '(Build_SPARQLGraphPattern _ _ _ f _ _) := self in f.
Definition bindings (self : SPARQLGraphPattern) : list pyobj :=
  let '(Build_SPARQLGraphPattern _ _ _ _ b _) := self in b.
Definition values (self : SPARQLGraphPattern) : list pyobj :=
  let '(Build_SPARQLGraphPattern _ _ _ _ _ v) := self in v.

Module SelectQuery.
Definition prefixes (self : SPARQLSelectQuery) : list pyobj :=
  let '(Build_SPARQLSelectQuery p _ _ _ _ _) := self in p.
Definition where_ (self : SPARQLSelectQuery) : pyobj :=
  let '(Build_SPARQLSelectQuery _ w _ _ _ _) := self in w.
Definition distinct (self : SPARQLSelectQuery) : bool :=
  let '(Build_SPARQLSelectQuery _ _ d _ _ _) := self in d.
Definition limit (self : SPARQLSelectQuery) : py_limit :=
  let '(Build_SPARQLSelectQuery _ _ _ l _ _) := self in l.
Definition variables (self : SPARQLSelectQuery) : list string :=
  let '(Build_SPARQLSelectQuery _ _ _ _ v _) := self in v.
Definition group_by (self : SPARQLSelectQuery) : list pyobj :=
  let '(Build_SPARQLSelectQuery _ _ _ _ _ g) := self in g.
End SelectQuery.

Module UpdateQuery.
Definition prefixes (self : SPARQLUpdateQuery) : list pyobj :=
  let '(Build_SPARQLUpdateQuery p _ _ _) := self in p.
Definition where_ (self : SPARQLUpdateQuery) : pyobj :=
  let '(Build_SPARQLUpdateQuery _ w _ _) := self in w.
Definition delete (self : SPARQLUpdateQuery) : pyobj :=
  let '(Build_SPARQLUpdateQuery _ _ d _) := self in d.
Definition insert (self : SPARQLUpdateQuery) : pyobj :=
  let '(Build_SPARQLUpdateQuery _ _ _ i) := self in i.
End UpdateQuery.

(** Run-time type tests, [type(x) is C] (the library has no subclass of
    its term classes, so [isinstance] coincides with it). *)

Definition is_Prefix (x : pyobj) : bool :=
  match x with Prefix _ _ => true | _ => false end.
Definition is_Triple (x : pyobj) : bool :=
  match x with Triple _ _ _ => true | _ => false end.
Definition is_Filter (x : pyobj) : bool :=
  match x with Filter _ => true | _ => false end.
Definition is_Having (x : pyobj) : bool :=
  match x with Having _ => true | _ => false end.
Definition is_Binding (x : pyobj) : bool :=
  match x with Binding _ _ => true | _ => false end.
Definition is_GroupBy (x : pyobj) : bool :=
  match x with GroupBy _ => true | _ => false end.
Definition is_Values (x : pyobj) : bool :=
  match x with Values _ _ => true | _ => false end.
Definition is_SPARQLGraphPattern (x : pyobj) : bool :=
  match x with Pattern _ => true | _ => false end.
Definition is_SPARQLSelectQuery (x : pyobj) : bool :=
  match x with Select _ => true | _ => false end.

(** ** What a call to [get_text] produces *)

(** Every [get_text] returns a string, and the one of a graph pattern may
    also return [False]. *)
Inductive retval : Type :=
| RStr (s : string)
| RFalse.

(** [if text:] *)
Definition truthy (r : retval) : bool :=
  match r with
  | RStr EmptyString => false
  | RStr (String _ _) => true
  | RFalse => false
  end.

Definition falsy (r : retval) : Prop := truthy r = false.

(** ["%s" % r] *)
Definition format (r : retval) : string :=
  match r with
  | RStr s => s
  | RFalse => "False"
  end.

(** How a block of statements ends: it falls through with a value, it
    executes [return r], or it raises an exception. *)
Inductive completion (A : Type) : Type :=
| Normal (a : A)
| Return (r : retval)
| Raise.

Arguments Normal {A} a.
Arguments Return {A} r.
Arguments Raise {A}.

Definition bind {A B : Type} (c : completion A) (k : A -> completion B)
  : completion B :=
  match c with
  | Normal a => k a
  | Return r => Return r
  | Raise => Raise
  end.

Declare Scope py_scope.
Delimit Scope py_scope with py.
Notation "x <- c ;; k" := (bind c (fun x => k))
  (at level 61, c at next level, right associativity) : py_scope.
#[local] Open Scope py_scope.

(** [try: body  except Exception: return ""], where [body] ends with
    [return value]. *)
Definition try_except (body : completion string) : retval :=
  match body with
  | Normal s => RStr s
  | Return r => r
  | Raise => RStr ""
  end.

(** [query_text += r]: adding [False] to a string raises [TypeError]. *)
Definition add_str (query_text : string) (r : retval) : completion string :=
  match r with
  | RStr s => Normal (query_text ++ s)
  | RFalse => Raise
  end.

(** [r[:-1]]: [False] is not subscriptable. *)
Definition slice_drop_last (r : retval) : completion string :=
  match r with
  | RStr s => Normal (Py.drop_last s)
  | RFalse => Raise
  end.

(** A [for] loop that updates an accumulator; it stops at the first
    iteration that returns or raises. *)
Section ForLoop.
Context {A B : Type} (body : A -> B -> completion B).

Fixpoint for_each (l : list A) (acc : B) : completion B :=
  match l with
  | [] => Normal acc
  | x :: rest =>
      match body x acc with
      | Normal acc' => for_each rest acc'
      | Return r => Return r
      | Raise => Raise
      end
  end.
End ForLoop.

(** ** SPARQLSyntaxTerms

    Each definition is the body of the [get_text] method of one class.
    Where a method calls [get_text] on an attribute, the callee is found
    by dynamic lookup: it is the parameter [call], instantiated further
    down by the recursive [get_text] over all objects.  [call o None] is
    [o.get_text()], and [call o (Some d)] is
    [o.get_text(indentation_depth=d)].

    Every method body is a [try] block whose handler prints a diagnostic
    and returns the empty string.  The diagnostic is not part of the
    model.  In [Prefix], [Triple], [Filter], [Having], [GroupBy] and
    [Values] the block only formats string attributes, which cannot
    raise, so the definition is the [return] of the block. *)

Definition method : Type := pyobj -> option Z -> completion retval.

(** [in_brackets(uri)] *)
Definition in_brackets (uri : string) : string :=
  if Py.startswith uri "<" then uri
  else if Py.startswith uri "http" then "<" ++ uri ++ ">"
  else uri.

Definition Prefix_get_text (prefix namespace : string) : retval :=
  RStr ("PREFIX " ++ prefix ++ ": <" ++ namespace ++ ">" ++ LF).

Definition Triple_get_text (subject predicate object : string) : retval :=
  RStr (subject ++ " " ++ predicate ++ " " ++ object ++ " . " ++ LF).

Definition Filter_get_text (expression : string) : retval :=
  RStr ("FILTER (" ++ expression ++ ")").

Definition Having_get_text (expression : string) : retval :=
  RStr ("HAVING (" ++ expression ++ ")").

(** The idiom shared by [Binding], [Bound] and [IfClause]:
    [if type(x) is str: text = x  else: text = x.get_text()]. *)
Definition slot_text (call : method) (x : pyobj) : completion string :=
  match x with
  | PyStr s => Normal s
  | _ => r <- call x None ;; Normal (format r)
  end.

Definition Binding_get_text (call : method) (value : pyobj) (variable : string)
  : retval :=
  try_except (
    value_text <- slot_text call value ;;
    Normal ("BIND (" ++ value_text ++ " AS " ++ variable ++ ")")).

Definition Bound_get_text (call : method) (variable : pyobj) : retval :=
  try_except (
    variable_text <- slot_text call variable ;;
    Normal ("BOUND (" ++ variable_text ++ ")")).

Definition IfClause_get_text (call : method)
  (condition true_value false_value : pyobj) : retval :=
  try_except (
    condition_text <- slot_text call condition ;;
    true_value_text <- slot_text call true_value ;;
    false_value_text <- slot_text call false_value ;;
    Normal ("IF (" ++ condition_text ++ ", " ++ true_value_text ++ ", "
              ++ false_value_text ++ ")")).

Definition GroupBy_get_text (variables : list string) : retval :=
  RStr ("GROUP BY " ++ Py.join " " variables).

Definition Values_get_text (values : list string) (name : string) : retval :=
  let enclosed_values := map in_brackets values in
  RStr ("VALUES " ++ name ++ " {" ++ Py.join " " enclosed_values ++ "}").

(** ** SPARQLQueryBuilder *)

(** [for x in xs: query_text += "%s%s\n" % (inner_indentation, x.get_text())],
    the loop run over [self.values], [self.bindings] and [self.filters]. *)
Definition add_lines (call : method) (inner_indentation : string)
  (xs : list pyobj) (query_text : string) : completion string :=
  for_each (fun x query_text =>
              r <- call x None ;;
              Normal (query_text ++ inner_indentation ++ format r ++ LF))
           xs query_text.

(** One iteration of [for entry in self.graph]. *)
Definition add_entry (call : method) (indentation_depth : Z)
  (inner_indentation : string) (entry : pyobj) (query_text : string)
  : completion string :=
  match entry with
  | Triple _ _ _ =>
      r <- call entry None ;;
      Normal (query_text ++ inner_indentation ++ format r)
  | Pattern _ =>
      nested_graph_text <- call entry (Some (indentation_depth + 1)) ;;
      if truthy nested_graph_text
      then add_str query_text nested_graph_text
      else Return RFalse
  | Select _ =>
      nested_select_text <- call entry (Some (indentation_depth + 2)) ;;
      if truthy nested_select_text
      then Normal (query_text ++ inner_indentation ++ "{"
                     ++ format nested_select_text ++ inner_indentation
                     ++ "}" ++ LF)
      else Return RFalse
  | _ => Normal query_text
  end.

Definition SPARQLGraphPattern_get_text (call : method)
  (self : SPARQLGraphPattern) (indentation_depth : Z) : retval :=
  try_except (
    let outer_indentation := Py.mul indentation_depth "   " in
    let inner_indentation := Py.mul (indentation_depth + 1) "   " in
    let query_text :=
      if is_optional self then outer_indentation ++ "OPTIONAL {" ++ LF
      else if is_union self
           then outer_indentation ++ "UNION" ++ LF
                  ++ outer_indentation ++ "{" ++ LF
           else outer_indentation ++ "{" ++ LF in
    query_text <- add_lines call inner_indentation (values self) query_text ;;
    query_text <- for_each (add_entry call indentation_depth inner_indentation)
                           (graph self) query_text ;;
    query_text <- add_lines call inner_indentation (bindings self) query_text ;;
    query_text <- add_lines call inner_indentation (filters self) query_text ;;
    Normal (query_text ++ outer_indentation ++ "}" ++ LF)).

(** [for prefix in self.prefixes: query_text += prefix.get_text()] *)
Definition add_prefixes (call : method) (prefixes : list pyobj)
  (query_text : string) : completion string :=
  for_each (fun prefix query_text =>
              r <- call prefix None ;; add_str query_text r)
           prefixes query_text.

(** [if pattern is not None:
       query_text += "\n%s<TOKEN> " % (outer_indentation,)
       query_text += pattern.get_text(indentation_depth=indentation_depth)[:-1]]
    The select query adds its [WHERE] token outside the test; the update
    query adds each of its three tokens inside it. *)
Definition add_pattern (call : method) (indentation_depth : Z)
  (pattern : pyobj) (query_text : string) : completion string :=
  r <- call pattern (Some indentation_depth) ;;
  text <- slice_drop_last r ;;
  Normal (query_text ++ text).

Definition SPARQLSelectQuery_get_text (call : method)
  (self : SPARQLSelectQuery) (indentation_depth : Z) : retval :=
  try_except (
    let outer_indentation := Py.mul indentation_depth "   " in
    query_text <- add_prefixes call (SelectQuery.prefixes self) "" ;;
    let distinct_token :=
      if SelectQuery.distinct self then "DISTINCT " else "" in
    let query_text :=
      query_text ++ LF ++ outer_indentation ++ "SELECT " ++ distinct_token in
    let query_text :=
      match SelectQuery.variables self with
      | _ :: _ => query_text ++ Py.join " " (SelectQuery.variables self)
      | [] => query_text ++ " *"
      end in
    let query_text := query_text ++ LF ++ outer_indentation ++ "WHERE " in
    query_text <-
      match SelectQuery.where_ self with
      | PyNone => Normal query_text
      | _ => add_pattern call indentation_depth (SelectQuery.where_ self)
                         query_text
      end ;;
    query_text <-
      for_each (fun group query_text =>
                  r <- call group None ;;
                  Normal (query_text ++ LF ++ outer_indentation ++ format r))
               (SelectQuery.group_by self) query_text ;;
    let query_text :=
      match SelectQuery.limit self with
      | LimitInt n =>
          if n =? 0 then query_text
          else query_text ++ LF ++ "LIMIT " ++ Py.str_of_int n
      | LimitFalse => query_text
      end in
    Normal query_text).

(** One section of an update query. *)
Definition add_section (call : method) (indentation_depth : Z)
  (token : string) (pattern : pyobj) (query_text : string)
  : completion string :=
  match pattern with
  | PyNone => Normal query_text
  | _ =>
      let outer_indentation := Py.mul indentation_depth "   " in
      add_pattern call indentation_depth pattern
                  (query_text ++ LF ++ outer_indentation ++ token ++ " ")
  end.

Definition SPARQLUpdateQuery_get_text (call : method)
  (self : SPARQLUpdateQuery) (indentation_depth : Z) : retval :=
  try_except (
    query_text <- add_prefixes call (UpdateQuery.prefixes self) "" ;;
    query_text <- add_section call indentation_depth "DELETE"
                              (UpdateQuery.delete self) query_text ;;
    query_text <- add_section call indentation_depth "INSERT"
                              (UpdateQuery.insert self) query_text ;;
    query_text <- add_section call indentation_depth "WHERE"
                              (UpdateQuery.where_ self) query_text ;;
    Normal query_text).

(** ** Method lookup

    [get_text self kwarg] is the call [self.get_text()] when [kwarg] is
    [None] and [self.get_text(indentation_depth=d)] when it is [Some d].
    Built-in values have no such method ([AttributeError]); the methods of
    the term classes take no argument, so a keyword raises [TypeError];
    the three composite classes default [indentation_depth] to [0].  No
    method lets an exception escape, so a call that finds its method ends
    normally. *)

Definition no_argument (kwarg : option Z) (r : retval) : completion retval :=
  match kwarg with
  | None => Normal r
  | Some _ => Raise
  end.

Definition depth_of (kwarg : option Z) : Z :=
  match kwarg with
  | None => 0
  | Some d => d
  end.

Fixpoint get_text (self : pyobj) (kwarg : option Z) {struct self}
  : completion retval :=
  match self with
  | PyNone | PyBool _ | PyInt _ | PyStr _ | PyList _ => Raise
  | Prefix prefix namespace =>
      no_argument kwarg (Prefix_get_text prefix namespace)
  | Triple subject predicate object =>
      no_argument kwarg (Triple_get_text subject predicate object)
  | Filter expression => no_argument kwarg (Filter_get_text expression)
  | Having expression => no_argument kwarg (Having_get_text expression)
  | Binding value variable =>
      no_argument kwarg (Binding_get_text get_text value variable)
  | Bound variable => no_argument kwarg (Bound_get_text get_text variable)
  | IfClause condition true_value false_value =>
      no_argument kwarg
        (IfClause_get_text get_text condition true_value false_value)
  | GroupBy variables => no_argument kwarg (GroupBy_get_text variables)
  | Values values name => no_argument kwarg (Values_get_text values name)
  | Pattern p => Normal (SPARQLGraphPattern_get_text get_text p (depth_of kwarg))
  | Select q => Normal (SPARQLSelectQuery_get_text get_text q (depth_of kwarg))
  | Update u => Normal (SPARQLUpdateQuery_get_text get_text u (depth_of kwarg))
  end.

(** ** Builder operations

    The methods that mutate [self] return the new state of the object
    together with the boolean the method returns.

    The source stores a reference to the object it is given and checks
    neither its identity nor what it contains.  Here a stored child is a
    value, the child as it was when it was added.  The two agree on an
    object graph that is a tree: the child is another object than [self],
    does not hold [self], and is not changed after it was nested.  A
    pattern nested into itself, which the source accepts and which makes
    [get_text] run into itself, has no counterpart here, and no property
    below speaks of it. *)

(** [SPARQLGraphPattern(optional=..., union=...)] *)
Definition SPARQLGraphPattern_init (optional union : bool)
  : SPARQLGraphPattern :=
  Build_SPARQLGraphPattern optional union [] [] [] [].

(** [type(triples) is list and
     all(isinstance(element, Triple) for element in triples)] *)
Definition list_of_triples (triples : pyobj) : option (list pyobj) :=
  match triples with
  | PyList elements =>
      if forallb is_Triple elements then Some elements else None
  | _ => None
  end.

Definition add_triples (self : SPARQLGraphPattern) (triples : pyobj)
  : SPARQLGraphPattern * bool :=
  match list_of_triples triples with
  | Some elements =>
      (Build_SPARQLGraphPattern (is_optional self) (is_union self)
         (graph self ++ elements) (filters self) (bindings self)
         (values self), true)
  | None => (self, false)
  end.

(** [self.graph.append(x)] *)
Definition graph_append (self : SPARQLGraphPattern) (x : pyobj)
  : SPARQLGraphPattern :=
  Build_SPARQLGraphPattern (is_optional self) (is_union self)
    (graph self ++ [x]) (filters self) (bindings self) (values self).

Definition add_nested_graph_pattern (self : SPARQLGraphPattern)
  (graph_pattern : pyobj) : SPARQLGraphPattern * bool :=
  if is_SPARQLGraphPattern graph_pattern
  then (graph_append self graph_pattern, true)
  else (self, false).

Definition add_nested_select_query (self : SPARQLGraphPattern)
  (select_query : pyobj) : SPARQLGraphPattern * bool :=
  if is_SPARQLSelectQuery select_query
  then (graph_append self select_query, true)
  else (self, false).

(** [self.filters.append(x)] *)
Definition filters_append (self : SPARQLGraphPattern) (x : pyobj)
  : SPARQLGraphPattern :=
  Build_SPARQLGraphPattern (is_optional self) (is_union self)
    (graph self) (filters self ++ [x]) (bindings self) (values self).

Definition add_filter (self : SPARQLGraphPattern) (filter : pyobj)
  : SPARQLGraphPattern * bool :=
  if is_Filter filter then (filters_append self filter, true)
  else (self, false).

Definition add_having (self : SPARQLGraphPattern) (filter : pyobj)
  : SPARQLGraphPattern * bool :=
  if is_Having filter then (filters_append self filter, true)
  else (self, false).

Definition add_binding (self : SPARQLGraphPattern) (binding : pyobj)
  : SPARQLGraphPattern * bool :=
  if is_Binding binding
  then (Build_SPARQLGraphPattern (is_optional self) (is_union self)
          (graph self) (filters self) (bindings self ++ [binding])
          (values self), true)
  else (self, false).

Definition add_value (self : SPARQLGraphPattern) (value : pyobj)
  : SPARQLGraphPattern * bool :=
  if is_Values value
  then (Build_SPARQLGraphPattern (is_optional self) (is_union self)
          (graph self) (filters self) (bindings self)
          (values self ++ [value]), true)
  else (self, false).

(** [SPARQLQuery] is the base class of both kinds of query: it owns the
    attributes [prefixes] and [where] and the methods [add_prefix],
    [add_popular_prefixes] and [set_where_pattern], which the two
    subclasses inherit. *)
Class SPARQLQuery (Q : Type) : Type := {
  query_prefixes : Q -> list pyobj;
  with_prefixes : Q -> list pyobj -> Q;
  with_where : Q -> pyobj -> Q
}.

#[export] Instance SelectQuery_SPARQLQuery : SPARQLQuery SPARQLSelectQuery := {
  query_prefixes := SelectQuery.prefixes;
  with_prefixes self prefixes :=
    Build_SPARQLSelectQuery prefixes (SelectQuery.where_ self)
      (SelectQuery.distinct self) (SelectQuery.limit self)
      (SelectQuery.variables self) (SelectQuery.group_by self);
  with_where self pattern :=
    Build_SPARQLSelectQuery (SelectQuery.prefixes self) pattern
      (SelectQuery.distinct self) (SelectQuery.limit self)
      (SelectQuery.variables self) (SelectQuery.group_by self)
}.

#[export] Instance UpdateQuery_SPARQLQuery : SPARQLQuery SPARQLUpdateQuery := {
  query_prefixes := UpdateQuery.prefixes;
  with_prefixes self prefixes :=
    Build_SPARQLUpdateQuery prefixes (UpdateQuery.where_ self)
      (UpdateQuery.delete self) (UpdateQuery.insert self);
  with_where self pattern :=
    Build_SPARQLUpdateQuery (UpdateQuery.prefixes self) pattern
      (UpdateQuery.delete self) (UpdateQuery.insert self)
}.

Definition add_prefix {Q : Type} `{SPARQLQuery Q} (self : Q) (prefix : pyobj)
  : Q * bool :=
  if is_Prefix prefix
  then (with_prefixes self (query_prefixes self ++ [prefix]), true)
  else (self, false).

Definition set_where_pattern {Q : Type} `{SPARQLQuery Q} (self : Q)
  (graph_pattern : pyobj) : Q * bool :=
  if is_SPARQLGraphPattern graph_pattern
  then (with_where self graph_pattern, true)
  else (self, false).

(** The dictionary of [add_popular_prefixes], in insertion order. *)
Definition popular_prefixes : list (string * string) :=
  [("rdf", "http://www.w3.org/1999/02/22-rdf-syntax-ns#");
   ("rdfs", "http://www.w3.org/2000/01/rdf-schema#");
   ("xml", "http://www.w3.org/2001/XMLSchema#");
   ("owl", "http://www.w3.org/2002/07/owl#");
   ("prov", "http://www.w3.org/ns/prov#");
   ("foaf", "http://xmlns.com/foaf/0.1/")].

Definition add_popular_prefixes {Q : Type} `{SPARQLQuery Q} (self : Q) : Q :=
  fold_left
    (fun self entry => fst (add_prefix self (Prefix (fst entry) (snd entry))))
    popular_prefixes self.

(** [SPARQLSelectQuery(distinct=..., limit=..., include_popular_prefixes=...)] *)
Definition SPARQLSelectQuery_init (distinct : bool) (limit : py_limit)
  (include_popular_prefixes : bool) : SPARQLSelectQuery :=
  let self := Build_SPARQLSelectQuery [] PyNone distinct limit [] [] in
  if include_popular_prefixes then add_popular_prefixes self else self.

(** [type(variables) is list and
     all(isinstance(element, str) for element in variables)] *)
Fixpoint list_of_str (elements : list pyobj) : option (list string) :=
  match elements with
  | [] => Some []
  | PyStr s :: rest =>
      match list_of_str rest with
      | Some l => Some (s :: l)
      | None => None
      end
  | _ :: _ => None
  end.

Definition add_variables (self : SPARQLSelectQuery) (variables : pyobj)
  : SPARQLSelectQuery * bool :=
  match variables with
  | PyList elements =>
      match list_of_str elements with
      | Some l =>
          (Build_SPARQLSelectQuery (SelectQuery.prefixes self)
             (SelectQuery.where_ self) (SelectQuery.distinct self)
             (SelectQuery.limit self) (SelectQuery.variables self ++ l)
             (SelectQuery.group_by self), true)
      | None => (self, false)
      end
  | _ => (self, false)
  end.

Definition add_group_by (self : SPARQLSelectQuery) (group : pyobj)
  : SPARQLSelectQuery * bool :=
  if is_GroupBy group
  then (Build_SPARQLSelectQuery (SelectQuery.prefixes self)
          (SelectQuery.where_ self) (SelectQuery.distinct self)
          (SelectQuery.limit self) (SelectQuery.variables self)
          (SelectQuery.group_by self ++ [group]), true)
  else (self, false).

(** [SPARQLUpdateQuery(include_popular_prefixes=...)] *)
Definition SPARQLUpdateQuery_init (include_popular_prefixes : bool)
  : SPARQLUpdateQuery :=
  let self := Build_SPARQLUpdateQuery [] PyNone PyNone PyNone in
  if include_popular_prefixes then add_popular_prefixes self else self.

Definition set_delete_pattern (self : SPARQLUpdateQuery)
  (graph_pattern : pyobj) : SPARQLUpdateQuery * bool :=
  if is_SPARQLGraphPattern graph_pattern
  then (Build_SPARQLUpdateQuery (UpdateQuery.prefixes self)
          (UpdateQuery.where_ self) graph_pattern (UpdateQuery.insert self),
        true)
  else (self, false).

Definition set_insert_pattern (self : SPARQLUpdateQuery)
  (graph_pattern : pyobj) : SPARQLUpdateQuery * bool :=
  if is_SPARQLGraphPattern graph_pattern
  then (Build_SPARQLUpdateQuery (UpdateQuery.prefixes self)
          (UpdateQuery.where_ self) (UpdateQuery.delete self) graph_pattern,
        true)
  else (self, false).

(** A chain of builder calls on one object, the returned flags dropped. *)
Definition calls {A : Type} (self : A) (steps : list (A -> A * bool)) : A :=
  fold_left (fun self step => fst (step self)) steps self.

(** [re.sub(r' {2,}', ' ', text)], by which the tests of the repository
    compare texts: every run of spaces becomes one space. *)
Fixpoint squeeze_spaces (text : string) : string :=
  match text with
  | EmptyString => EmptyString
  | String c rest =>
      match rest with
      | String c' _ =>
          if (Ascii.eqb c " " && Ascii.eqb c' " ")%bool
          then squeeze_spaces rest
          else String c (squeeze_spaces rest)
      | EmptyString => String c EmptyString
      end
  end.

(** ** Vocabulary of the statements *)

(** The expressions that the documentation of [Binding], [Bound] and
    [IfClause] allows in a slot: a string, or one of these three terms
    nested to any depth. *)
Inductive expr : Type :=
| EStr (s : string)
| EBinding (value : expr) (variable : string)
| EBound (variable : expr)
| EIfClause (condition true_value false_value : expr).

Fixpoint obj_of_expr (e : expr) : pyobj :=
  match e with
  | EStr s => PyStr s
  | EBinding value variable => Binding (obj_of_expr value) variable
  | EBound variable => Bound (obj_of_expr variable)
  | EIfClause c t f =>
      IfClause (obj_of_expr c) (obj_of_expr t) (obj_of_expr f)
  end.

(** The text an expression stands for, every slot expanded in place. *)
Fixpoint expand (e : expr) : string :=
  match e with
  | EStr s => s
  | EBinding value variable =>
      "BIND (" ++ expand value ++ " AS " ++ variable ++ ")"
  | EBound variable => "BOUND (" ++ expand variable ++ ")"
  | EIfClause c t f =>
      "IF (" ++ expand c ++ ", " ++ expand t ++ ", " ++ expand f ++ ")"
  end.

(** Number of nested terms around the innermost string. *)
Fixpoint nesting (e : expr) : nat :=
  match e with
  | EStr _ => 0
  | EBinding value _ => S (nesting value)
  | EBound variable => S (nesting variable)
  | EIfClause c t f =>
      S (Nat.max (nesting c) (Nat.max (nesting t) (nesting f)))
  end.

(** An expression nested seven terms deep. *)
Definition seven_levels : expr :=
  EBinding
    (EIfClause
       (EBound
          (EIfClause
             (EBound (EIfClause (EBound (EStr "?a")) (EStr "?a") (EStr "?b")))
             (EStr "?c") (EStr "?d")))
       (EIfClause (EStr "?age >= 18") (EStr "'adult'") (EStr "'minor'"))
       (EStr "'Unknown'"))
    "?status".

(** Prefix declarations given as (short name, namespace) pairs, the
    objects [add_prefix] stores for them and the lines they render to. *)
Definition prefix_objects (decls : list (string * string)) : list pyobj :=
  map (fun d => Prefix (fst d) (snd d)) decls.

Fixpoint prefix_lines (decls : list (string * string)) : string :=
  match decls with
  | [] => ""
  | d :: rest =>
      "PREFIX " ++ fst d ++ ": <" ++ snd d ++ ">" ++ LF ++ prefix_lines rest
  end.

(** An attribute that is [None] until a pattern is set. *)
Definition slot_obj (slot : option SPARQLGraphPattern) : pyobj :=
  match slot with
  | None => PyNone
  | Some p => Pattern p
  end.

(** What a section of an update query contributes: nothing when the
    pattern is unset; otherwise a line break, the indentation, the token, a
    space and the text of the pattern without its last character. *)
Definition section_text (indentation_depth : Z) (token : string)
  (slot : option SPARQLGraphPattern) : string :=
  match slot with
  | None => ""
  | Some p =>
      LF ++ Py.mul indentation_depth "   " ++ token ++ " "
         ++ Py.drop_last
              (format (SPARQLGraphPattern_get_text get_text p indentation_depth))
  end.

(** The objects shared by the tests of the repository, and the helper by
    which the tests read the text of a pattern or query. *)
Definition person_is_Person : pyobj := Triple "?person" "rdf:type" "ex:Person".
Definition person_hasName : pyobj := Triple "?person" "ex:hasName" "?name".
Definition person_hasAge : pyobj := Triple "?person" "ex:hasAge" "?age".

Definition generate_assert_string (sparql_pattern : pyobj) : string :=
  match get_text sparql_pattern None with
  | Normal (RStr text) => squeeze_spaces text
  | _ => ""
  end.

(** ** Trees of admitted objects

    A pattern or select query every attribute of which holds objects of
    the classes that its [add_*] and [set_*] methods let through, nested
    to a finite depth. *)

Inductive built_pattern : SPARQLGraphPattern -> Prop :=
| built_Pattern optional union graph filters bindings values :
    built_graph graph ->
    Forall (fun x => is_Filter x || is_Having x = true) filters ->
    Forall (fun x => is_Binding x = true) bindings ->
    Forall (fun x => is_Values x = true) values ->
    built_pattern
      (Build_SPARQLGraphPattern optional union graph filters bindings values)

with built_graph : list pyobj -> Prop :=
| built_graph_nil : built_graph []
| built_graph_Triple s p o rest :
    built_graph rest -> built_graph (Triple s p o :: rest)
| built_graph_Pattern p rest :
    built_pattern p -> built_graph rest -> built_graph (Pattern p :: rest)
| built_graph_Select q rest :
    built_select q -> built_graph rest -> built_graph (Select q :: rest)

with built_select : SPARQLSelectQuery -> Prop :=
| built_Select prefixes where_ distinct limit variables group_by :
    Forall (fun x => is_Prefix x = true) prefixes ->
    built_where where_ ->
    Forall (fun x => is_GroupBy x = true) group_by ->
    built_select
      (Build_SPARQLSelectQuery prefixes where_ distinct limit variables
         group_by)

with built_where : pyobj -> Prop :=
| built_where_None : built_where PyNone
| built_where_Pattern p : built_pattern p -> built_where (Pattern p).

Scheme built_pattern_mut := Minimality for built_pattern Sort Prop
  with built_graph_mut := Minimality for built_graph Sort Prop
  with built_select_mut := Minimality for built_select Sort Prop
  with built_where_mut := Minimality for built_where Sort Prop.

Combined Scheme built_mutind
  from built_pattern_mut, built_graph_mut, built_select_mut, built_where_mut.

(** [x.get_text()] finds a method on every object of a library class. *)
Definition has_get_text (x : pyobj) : bool :=
  match x with
  | PyNone | PyBool _ | PyInt _ | PyStr _ | PyList _ => false
  | _ => true
  end.

(** ** Vocabulary of the further properties *)

(** [self'] holds everything [self] holds, in the same order, with
    possibly more at the end of each list, under the same two flags. *)
Definition extends (self self' : SPARQLGraphPattern) : Prop :=
  is_optional self' = is_optional self
  /\ is_union self' = is_union self
  /\ (exists more, graph self' = (graph self ++ more)%list)
  /\ (exists more, filters self' = (filters self ++ more)%list)
  /\ (exists more, bindings self' = (bindings self ++ more)%list)
  /\ (exists more, values self' = (values self ++ more)%list).

(** The text [x.get_text()] contributes to a ["%s"] format, for an object
    that has the method. *)
Definition text_of (x : pyobj) : string :=
  match get_text x None with
  | Normal r => format r
  | _ => ""
  end.

(** One line per object, each at the inner indentation. *)
Fixpoint lines_text (inner_indentation : string) (xs : list pyobj) : string :=
  match xs with
  | [] => ""
  | x :: rest =>
      inner_indentation ++ text_of x ++ LF
        ++ lines_text inner_indentation rest
  end.

(** What one entry of the graph contributes at a given depth. *)
Definition entry_text (indentation_depth : Z) (entry : pyobj) : string :=
  let inner_indentation := Py.mul (indentation_depth + 1) "   " in
  match entry with
  | Triple s p o =>
      inner_indentation ++ s ++ " " ++ p ++ " " ++ o ++ " . " ++ LF
  | Pattern p =>
      format (SPARQLGraphPattern_get_text get_text p (indentation_depth + 1))
  | Select q =>
      inner_indentation ++ "{"
        ++ format (SPARQLSelectQuery_get_text get_text q
                     (indentation_depth + 2))
        ++ inner_indentation ++ "}" ++ LF
  | _ => ""
  end.

Fixpoint graph_text (indentation_depth : Z) (entries : list pyobj) : string :=
  match entries with
  | [] => ""
  | entry :: rest =>
      entry_text indentation_depth entry ++ graph_text indentation_depth rest
  end.

(** The first line, or first two lines, of a pattern. *)
Definition opening_text (optional union : bool) (outer_indentation : string)
  : string :=
  if optional then outer_indentation ++ "OPTIONAL {" ++ LF
  else if union
       then outer_indentation ++ "UNION" ++ LF ++ outer_indentation ++ "{" ++ LF
       else outer_indentation ++ "{" ++ LF.

(** A slot of [Binding], [Bound] or [IfClause] that can be rendered: a
    string, or an object with a [get_text] method; and what it renders to. *)
Definition slot_ok (x : pyobj) : bool :=
  match x with
  | PyStr _ => true
  | _ => has_get_text x
  end.

Definition slot_string (x : pyobj) : string :=
  match x with
  | PyStr s => s
  | _ => text_of x
  end.

(** The GROUP BY lines of a select query, one per clause. *)
Fixpoint group_lines (outer_indentation : string) (groups : list (list string))
  : string :=
  match groups with
  | [] => ""
  | g :: rest =>
      LF ++ outer_indentation ++ "GROUP BY " ++ Py.join " " g
         ++ group_lines outer_indentation rest
  end.

(** The LIMIT line of a select query. *)
Definition limit_line (limit : py_limit) : string :=
  match limit with
  | LimitFalse => ""
  | LimitInt n => if n =? 0 then "" else LF ++ "LIMIT " ++ Py.str_of_int n
  end.

(** The body of [SPARQLSelectQuery.get_text] up to the loop over the
    GROUP BY clauses, that is, all of it but the LIMIT line. *)
Definition select_head (self : SPARQLSelectQuery) (indentation_depth : Z)
  : completion string :=
  let outer_indentation := Py.mul indentation_depth "   " in
  query_text <- add_prefixes get_text (SelectQuery.prefixes self) "" ;;
  let distinct_token :=
    if SelectQuery.distinct self then "DISTINCT " else "" in
  let query_text :=
    query_text ++ LF ++ outer_indentation ++ "SELECT " ++ distinct_token in
  let query_text :=
    match SelectQuery.variables self with
    | _ :: _ => query_text ++ Py.join " " (SelectQuery.variables self)
    | [] => query_text ++ " *"
    end in
  let query_text := query_text ++ LF ++ outer_indentation ++ "WHERE " in
  query_text <-
    match SelectQuery.where_ self with
    | PyNone => Normal query_text
    | _ => add_pattern get_text indentation_depth (SelectQuery.where_ self)
                       query_text
    end ;;
  for_each (fun group query_text =>
              r <- get_text group None ;;
              Normal (query_text ++ LF ++ outer_indentation ++ format r))
           (SelectQuery.group_by self) query_text.

(** [nested_at c dc p d]: when [p] is rendered at depth [d], the pattern
    [c] is reached through the graphs of nested patterns and rendered at
    depth [dc]. *)
Inductive nested_at (c : SPARQLGraphPattern) (dc : Z)
  : SPARQLGraphPattern -> Z -> Prop :=
| nested_here : nested_at c dc c dc
| nested_deeper p d mid :
    In (Pattern mid) (graph p) ->
    nested_at c dc mid (d + 1) ->
    nested_at c dc p d.

(** ** Flags, openings and failing patterns *)

(** A completion computed from the empty text, put after [query_text]. *)
Definition shift (query_text : string) (c : completion string)
  : completion string :=
  match c with
  | Normal s => Normal (query_text ++ s)
  | Return r => Return r
  | Raise => Raise
  end.



(** A pattern is set and its [get_text] answers [False]. *)
Definition slot_fails (indentation_depth : Z)
  (slot : option SPARQLGraphPattern) : bool :=
  match slot with
  | None => false
  | Some p =>
      match SPARQLGraphPattern_get_text get_text p indentation_depth with
      | RFalse => true
      | RStr _ => false
      end
  end.

(** Patterns with a string where a Filter object belongs, as left by
    [pattern.filters.append("?age > 30")], and patterns that nest one. *)
Definition pattern_with_str_filter : SPARQLGraphPattern :=
  Build_SPARQLGraphPattern false false
    [Triple "?person" "ex:hasAge" "?age"] [PyStr "?age > 30"] [] [].

Definition delete_with_failing_child : SPARQLGraphPattern :=
  Build_SPARQLGraphPattern false false
    [Triple "?person" "ex:hasAge" "?age"; Pattern pattern_with_str_filter]
    [] [] [].

Definition update_with_failing_delete : SPARQLUpdateQuery :=
  Build_SPARQLUpdateQuery [Prefix "ex" "http://www.example.com#"]
    (Pattern (Build_SPARQLGraphPattern false false
                [Triple "?person" "rdf:type" "ex:Person"] [] [] []))
    (Pattern delete_with_failing_child) PyNone.




(** * Properties *)

(** ** Strings *)

Lemma append_empty_r (s : string) : s ++ "" = s.
Proof. induction s as [|c s IH]; cbn; [reflexivity | now rewrite IH]. Qed.

Lemma append_assoc_r (a b c : string) : (a ++ b) ++ c = a ++ (b ++ c).
Proof. induction a as [|x a IH]; cbn; [reflexivity | now rewrite IH]. Qed.

Lemma drop_last_snoc (s : string) (c : ascii) :
  Py.drop_last (s ++ String c "") = s.
Proof.
  induction s as [|x s IH]; [reflexivity|].
  cbn [append]. cbn [Py.drop_last].
  destruct s as [|y s]; [reflexivity|].
  cbn [append] in *. now rewrite IH.
Qed.

Lemma drop_last_LF (s : string) : Py.drop_last (s ++ LF) = s.
Proof. apply drop_last_snoc. Qed.

Lemma mul_0 (s : string) : Py.mul 0 s = "".
Proof. reflexivity. Qed.

Lemma mul_1 (s : string) : Py.mul 1 s = s.
Proof. unfold Py.mul. cbn. apply append_empty_r. Qed.

(** Right-nest every concatenation and evaluate what is closed. *)
Ltac str_norm :=
  cbn -[Py.mul]; rewrite ?mul_0, ?mul_1;
  repeat (progress (cbn -[Py.mul]; rewrite ?append_assoc_r, ?append_empty_r)).

(** ** Method lookup on the composite classes *)

Lemma get_text_Pattern (p : SPARQLGraphPattern) (kwarg : option Z) :
  get_text (Pattern p) kwarg
  = Normal (SPARQLGraphPattern_get_text get_text p (depth_of kwarg)).
Proof. reflexivity. Qed.

Lemma get_text_Select (q : SPARQLSelectQuery) (kwarg : option Z) :
  get_text (Select q) kwarg
  = Normal (SPARQLSelectQuery_get_text get_text q (depth_of kwarg)).
Proof. reflexivity. Qed.

(** ** C1 *)

(** C1: a plain pattern (neither optional nor union) that holds exactly one
    triple built from the strings S, P, O renders at depth 0 to
    "{\n   S P O . \n}\n": the opening brace on a line, the three terms
    separated by single spaces after three spaces of indentation and
    followed by " . " and a line break, and the closing brace on a line. *)
Theorem single_triple_pattern_text (S P O : string) :
  let pattern :=
    fst (add_triples (SPARQLGraphPattern_init false false)
           (PyList [Triple S P O])) in
  let text :=
    "{" ++ LF ++ "   " ++ S ++ " " ++ P ++ " " ++ O ++ " . " ++ LF
        ++ "}" ++ LF in
  pattern = Build_SPARQLGraphPattern false false [Triple S P O] [] [] []
  /\ SPARQLGraphPattern_get_text get_text pattern 0 = RStr text
  /\ get_text (Pattern pattern) None = Normal (RStr text).
Proof.
  intros pattern text. split; [reflexivity|].
  assert (H : SPARQLGraphPattern_get_text get_text pattern 0 = RStr text).
  { unfold SPARQLGraphPattern_get_text, text. str_norm. reflexivity. }
  split; [exact H|]. rewrite get_text_Pattern. cbn [depth_of]. now rewrite H.
Qed.

(** ** C4 *)

Lemma list_of_triples_Some (triples : pyobj) (elements : list pyobj) :
  list_of_triples triples = Some elements <->
  triples = PyList elements /\
  Forall (fun e => exists s p o, e = Triple s p o) elements.
Proof.
  unfold list_of_triples. split.
  - destruct triples; try discriminate.
    destruct (forallb is_Triple items) eqn:E; [|discriminate].
    intros [= <-]. split; [reflexivity|].
    rewrite forallb_forall in E. apply Forall_forall. intros e He.
    specialize (E e He). destruct e; try discriminate. now eauto.
  - intros [-> H].
    assert (E : forallb is_Triple elements = true).
    { apply forallb_forall. rewrite Forall_forall in H.
      intros e He. destruct (H e He) as (s & p & o & ->). reflexivity. }
    now rewrite E.
Qed.

(** C4: [add_triples] given a list of Triple objects appends them in order
    to the child list and returns True; given anything else (a value that
    is not a list, or a list with an element that is not a Triple) it
    returns False and leaves every field of the pattern as it was. *)
Theorem add_triples_checks_argument (self : SPARQLGraphPattern) :
  (forall elements,
      Forall (fun e => exists s p o, e = Triple s p o) elements ->
      add_triples self (PyList elements)
      = (Build_SPARQLGraphPattern (is_optional self) (is_union self)
           (graph self ++ elements) (filters self) (bindings self)
           (values self), true))
  /\
  (forall x,
      (forall elements, x <> PyList elements) ->
      add_triples self x = (self, false))
  /\
  (forall elements,
      Exists (fun e => forall s p o, e <> Triple s p o) elements ->
      add_triples self (PyList elements) = (self, false)).
Proof.
  repeat split.
  - intros elements Hall. unfold add_triples.
    assert (E : list_of_triples (PyList elements) = Some elements)
      by (apply list_of_triples_Some; auto).
    now rewrite E.
  - intros x Hx. unfold add_triples.
    destruct (list_of_triples x) as [elements|] eqn:E; [|reflexivity].
    apply list_of_triples_Some in E. destruct E as [Hl _].
    now elim (Hx elements).
  - intros elements Hbad. unfold add_triples.
    destruct (list_of_triples (PyList elements)) as [l|] eqn:E;
      [|reflexivity].
    apply list_of_triples_Some in E. destruct E as [[= <-] Hall].
    exfalso. apply Exists_exists in Hbad. destruct Hbad as (e & He & Hne).
    rewrite Forall_forall in Hall.
    destruct (Hall e He) as (s & p & o & ->). now apply (Hne s p o).
Qed.

Lemma add_triples_checks_argument_witness :
  let self := SPARQLGraphPattern_init false false in
  let t := Triple "?person" "rdf:type" "ex:Person" in
  add_triples self (PyList [t])
  = (Build_SPARQLGraphPattern false false [t] [] [] [], true)
  /\ add_triples self t = (self, false)
  /\ add_triples self (PyList [t; PyStr "?person ex:hasAge ?age"])
     = (self, false).
Proof.
  intros self t.
  destruct (add_triples_checks_argument self) as (Hok & Hnot_list & Hmixed).
  split; [|split].
  - apply (Hok [t]). constructor; [|constructor].
    exists "?person", "rdf:type", "ex:Person". reflexivity.
  - apply Hnot_list. intros elements. discriminate.
  - apply Hmixed. apply Exists_cons_tl. apply Exists_cons_hd.
    intros s p o. discriminate.
Defined.

(** ** C5 and C10: [Values] and [in_brackets] *)

Lemma startswith_iff (s p : string) :
  Py.startswith s p = true <-> exists rest, s = p ++ rest.
Proof.
  unfold Py.startswith. revert s.
  induction p as [|a p IH]; intros s.
  - destruct s; cbn; split; eauto.
  - destruct s as [|b s]; cbn.
    + split; [discriminate | intros [rest [=]]].
    + destruct (ascii_dec a b) as [->|Hab].
      * rewrite IH. split; intros [rest Hr]; exists rest; congruence.
      * split; [discriminate | intros [rest [= ? ?]]; congruence].
Qed.

Lemma startswith_false_iff (s p : string) :
  Py.startswith s p = false <-> ~ exists rest, s = p ++ rest.
Proof.
  rewrite <- startswith_iff. destruct (Py.startswith s p); intuition congruence.
Qed.

Lemma get_text_Values (values : list string) (name : string) :
  get_text (Values values name) None
  = Normal (RStr ("VALUES " ++ name ++ " {"
                    ++ Py.join " " (map in_brackets values) ++ "}")).
Proof. reflexivity. Qed.

(** C5: a Values term renders to "VALUES <name> {<v1> <v2> ...}", the
    values joined by one space after each went through [in_brackets]: a
    value that starts with "<" is unchanged; otherwise a value that passes
    the library's test for an HTTP(S) URI (it starts with "http") is put
    between "<" and ">"; any other value is unchanged.  The list
    ["https://x/1", "https://x/2"] under the name "?v" renders to
    "VALUES ?v {<https://x/1> <https://x/2>}", and "ex:Foo" is unchanged. *)
Theorem values_text (values : list string) (name : string) :
  get_text (Values values name) None
  = Normal (RStr ("VALUES " ++ name ++ " {"
                    ++ Py.join " " (map in_brackets values) ++ "}"))
  /\ (forall v, Py.startswith v "<" = true -> in_brackets v = v)
  /\ (forall v,
        Py.startswith v "<" = false -> Py.startswith v "http" = true ->
        in_brackets v = "<" ++ v ++ ">")
  /\ (forall v,
        Py.startswith v "<" = false -> Py.startswith v "http" = false ->
        in_brackets v = v)
  /\ get_text (Values ["https://x/1"; "https://x/2"] "?v") None
     = Normal (RStr "VALUES ?v {<https://x/1> <https://x/2>}")
  /\ get_text (Values ["<https://x/1>"; "ex:Foo"] "?v") None
     = Normal (RStr "VALUES ?v {<https://x/1> ex:Foo}").
Proof.
  split; [apply get_text_Values|].
  repeat split; try reflexivity; unfold in_brackets; intros v.
  - now intros ->.
  - now intros -> ->.
  - now intros -> ->.
Qed.

Lemma values_text_witness :
  in_brackets "<https://x/1>" = "<https://x/1>"
  /\ in_brackets "https://x/1" = "<https://x/1>"
  /\ in_brackets "ex:Foo" = "ex:Foo".
Proof.
  destruct (values_text [] "") as (_ & Hkeep & Hwrap & Hother & _).
  split; [|split].
  - apply Hkeep. reflexivity.
  - apply (Hwrap "https://x/1"); reflexivity.
  - apply Hother; reflexivity.
Defined.

(** C10: [in_brackets] puts between "<" and ">" exactly the strings that
    start with the four characters "http" and do not start with "<", and
    returns every other string as it is; it does not check that the string
    is a URI.  "httpfoo" becomes "<httpfoo>"; "Http://x" and "ftp://x" are
    unchanged, also inside a Values term. *)
Theorem in_brackets_tests_http_prefix :
  (forall uri,
      (exists rest, uri = "http" ++ rest) ->
      ~ (exists rest, uri = "<" ++ rest) ->
      in_brackets uri = "<" ++ uri ++ ">")
  /\ (forall uri,
        ~ ((exists rest, uri = "http" ++ rest)
           /\ ~ (exists rest, uri = "<" ++ rest)) ->
        in_brackets uri = uri)
  /\ in_brackets "httpfoo" = "<httpfoo>"
  /\ in_brackets "Http://x" = "Http://x"
  /\ in_brackets "ftp://x" = "ftp://x"
  /\ get_text (Values ["httpfoo"; "Http://x"; "ftp://x"] "?v") None
     = Normal (RStr "VALUES ?v {<httpfoo> Http://x ftp://x}").
Proof.
  repeat split; try reflexivity; intros uri; unfold in_brackets.
  - intros Hhttp Hlt.
    apply startswith_iff in Hhttp. apply startswith_false_iff in Hlt.
    now rewrite Hlt, Hhttp.
  - intros Hnot.
    destruct (Py.startswith uri "<") eqn:Elt; [reflexivity|].
    destruct (Py.startswith uri "http") eqn:Ehttp; [|reflexivity].
    exfalso. apply Hnot. split.
    + now apply startswith_iff.
    + now apply startswith_false_iff.
Qed.

Lemma in_brackets_tests_http_prefix_witness :
  in_brackets "httpfoo" = "<httpfoo>" /\ in_brackets "ftp://x" = "ftp://x".
Proof.
  destruct in_brackets_tests_http_prefix as (Hwrap & Hkeep & _).
  split.
  - apply (Hwrap "httpfoo").
    + exists "foo". reflexivity.
    + intros [rest Hrest]. discriminate Hrest.
  - apply (Hkeep "ftp://x"). intros [[rest Hrest] _]. discriminate Hrest.
Defined.

(** ** C6: [Binding], [IfClause], [Bound] *)

Lemma slot_text_expr (e : expr) :
  slot_text get_text (obj_of_expr e) = Normal (expand e).
Proof.
  induction e as [s | value IH variable | variable IH | c IHc t IHt f IHf];
    cbn -[append].
  - reflexivity.
  - unfold Binding_get_text. now rewrite IH.
  - unfold Bound_get_text. now rewrite IH.
  - unfold IfClause_get_text. now rewrite IHc, IHt, IHf.
Qed.

Lemma get_text_expr (e : expr) :
  match e with
  | EStr _ => get_text (obj_of_expr e) None = Raise
  | _ => get_text (obj_of_expr e) None = Normal (RStr (expand e))
  end.
Proof.
  destruct e as [s | value variable | variable | c t f]; cbn -[append].
  - reflexivity.
  - unfold Binding_get_text. now rewrite slot_text_expr.
  - unfold Bound_get_text. now rewrite slot_text_expr.
  - unfold IfClause_get_text. now rewrite !slot_text_expr.
Qed.

(** C6: a Binding whose value is an IfClause whose condition is a Bound,
    with strings in the other slots, renders to
    "BIND (IF (BOUND (<var>), <true>, <false>) AS <variable>)".  In general
    a slot that holds a string contributes the string, and a slot that
    holds a Binding, IfClause or Bound contributes the text of that term,
    whatever the depth of the nesting: the text of a term is its full
    expansion.  An expression nested seven levels deep renders in full. *)
Theorem nested_binding_text :
  (forall var true_value false_value variable,
      get_text
        (Binding (IfClause (Bound (PyStr var)) (PyStr true_value)
                    (PyStr false_value)) variable) None
      = Normal (RStr ("BIND (IF (BOUND (" ++ var ++ "), " ++ true_value
                        ++ ", " ++ false_value ++ ") AS " ++ variable ++ ")")))
  /\ (forall s, slot_text get_text (PyStr s) = Normal s)
  /\ (forall e, slot_text get_text (obj_of_expr e) = Normal (expand e))
  /\ (forall value variable,
        get_text (obj_of_expr (EBinding value variable)) None
        = Normal (RStr ("BIND (" ++ expand value ++ " AS " ++ variable ++ ")")))
  /\ (forall variable,
        get_text (obj_of_expr (EBound variable)) None
        = Normal (RStr ("BOUND (" ++ expand variable ++ ")")))
  /\ (forall c t f,
        get_text (obj_of_expr (EIfClause c t f)) None
        = Normal (RStr ("IF (" ++ expand c ++ ", " ++ expand t ++ ", "
                          ++ expand f ++ ")")))
  /\ (nesting seven_levels = 7%nat
      /\ get_text (obj_of_expr seven_levels) None
         = Normal (RStr
             ("BIND (IF (BOUND (IF (BOUND (IF (BOUND (?a), ?a, ?b)), ?c, ?d)), "
              ++ "IF (?age >= 18, 'adult', 'minor'), 'Unknown') AS ?status)"))).
Proof.
  split; [|split; [|split; [|split; [|split; [|split]]]]].
  - intros. cbn -[append]. unfold Binding_get_text, IfClause_get_text,
      Bound_get_text. str_norm. reflexivity.
  - reflexivity.
  - apply slot_text_expr.
  - intros. apply (get_text_expr (EBinding value variable)).
  - intros. apply (get_text_expr (EBound variable)).
  - intros. apply (get_text_expr (EIfClause c t f)).
  - split; reflexivity.
Qed.

(** ** Calls and loops *)

(** A call either finds a method, which returns a value, or raises. *)
Lemma get_text_not_Return (o : pyobj) (kwarg : option Z) (r : retval) :
  get_text o kwarg <> Return r.
Proof. destruct o, kwarg; discriminate. Qed.

(** The loops over values, bindings and filters only append. *)
Lemma add_lines_cases (inner : string) (xs : list pyobj) (query_text : string) :
  add_lines get_text inner xs query_text = Raise
  \/ exists lines,
      add_lines get_text inner xs query_text = Normal (query_text ++ lines).
Proof.
  unfold add_lines. revert query_text.
  induction xs as [|x xs IH]; intros query_text; cbn -[append].
  - right. exists "". now rewrite append_empty_r.
  - destruct (get_text x None) as [r | r | ] eqn:E; cbn -[append].
    + destruct (IH (query_text ++ inner ++ format r ++ LF))
        as [-> | [lines ->]]; [now left|].
      right. exists ((inner ++ format r ++ LF) ++ lines).
      now rewrite append_assoc_r.
    + now elim (get_text_not_Return x None r).
    + now left.
Qed.

(** One iteration over the graph appends to the text or returns [False]. *)
Lemma add_entry_cases (d : Z) (inner : string) (entry : pyobj)
  (query_text : string) :
  add_entry get_text d inner entry query_text = Return RFalse
  \/ exists text,
      add_entry get_text d inner entry query_text
      = Normal (query_text ++ text).
Proof.
  destruct entry; cbn -[append SPARQLGraphPattern_get_text
                          SPARQLSelectQuery_get_text];
    try (right; exists ""; now rewrite append_empty_r).
  - right. now eexists.
  - destruct (SPARQLGraphPattern_get_text get_text p (d + 1)) as [[|c s]|];
      cbn -[append]; [now left | right; now eexists | now left].
  - destruct (SPARQLSelectQuery_get_text get_text q (d + 2)) as [[|c s]|];
      cbn -[append]; [now left | right; now eexists | now left].
Qed.

(** A nested pattern or select query whose text is falsy stops the loop. *)
Lemma add_entry_falsy_child (d : Z) (inner : string) (child : pyobj)
  (query_text : string) :
  (exists p, child = Pattern p
             /\ falsy (SPARQLGraphPattern_get_text get_text p (d + 1)))
  \/ (exists q, child = Select q
                /\ falsy (SPARQLSelectQuery_get_text get_text q (d + 2))) ->
  add_entry get_text d inner child query_text = Return RFalse.
Proof.
  unfold falsy.
  intros [(p & -> & H) | (q & -> & H)];
    cbn -[append SPARQLGraphPattern_get_text SPARQLSelectQuery_get_text];
    now rewrite H.
Qed.

Lemma graph_loop_cases (d : Z) (inner : string) (entries : list pyobj)
  (query_text : string) :
  for_each (add_entry get_text d inner) entries query_text = Return RFalse
  \/ exists text,
      for_each (add_entry get_text d inner) entries query_text
      = Normal (query_text ++ text).
Proof.
  revert query_text.
  induction entries as [|x xs IH]; intros query_text; cbn -[append add_entry].
  - right. exists "". now rewrite append_empty_r.
  - destruct (add_entry_cases d inner x query_text) as [-> | [text ->]];
      [now left|].
    destruct (IH (query_text ++ text)) as [-> | [text' ->]]; [now left|].
    right. exists (text ++ text'). now rewrite append_assoc_r.
Qed.

Lemma graph_loop_falsy_child (d : Z) (inner : string)
  (entries : list pyobj) (child : pyobj) (query_text : string) :
  In child entries ->
  (exists p, child = Pattern p
             /\ falsy (SPARQLGraphPattern_get_text get_text p (d + 1)))
  \/ (exists q, child = Select q
                /\ falsy (SPARQLSelectQuery_get_text get_text q (d + 2))) ->
  for_each (add_entry get_text d inner) entries query_text = Return RFalse.
Proof.
  intros Hin Hchild. revert query_text.
  induction entries as [|x xs IH]; intros query_text; [now elim Hin|].
  cbn -[append add_entry].
  destruct (add_entry_cases d inner x query_text) as [-> | [text E]];
    [reflexivity|].
  destruct Hin as [-> | Hin].
  - rewrite (add_entry_falsy_child d inner child query_text Hchild) in E.
    discriminate.
  - rewrite E. now apply IH.
Qed.

(** ** C3 *)

(** C3: when the graph of a pattern holds a nested graph pattern or a
    nested select query whose own text (at the depth the parent asks for)
    is empty or False, the text of the parent is False or empty: the parent
    never returns a piece of its own output. *)
Theorem nested_failure_aborts_render (self : SPARQLGraphPattern)
  (indentation_depth : Z) (child : pyobj) :
  In child (graph self) ->
  (exists p, child = Pattern p
             /\ falsy (SPARQLGraphPattern_get_text get_text p
                         (indentation_depth + 1)))
  \/ (exists q, child = Select q
                /\ falsy (SPARQLSelectQuery_get_text get_text q
                            (indentation_depth + 2))) ->
  SPARQLGraphPattern_get_text get_text self indentation_depth = RFalse
  \/ SPARQLGraphPattern_get_text get_text self indentation_depth = RStr "".
Proof.
  intros Hin Hchild.
  unfold SPARQLGraphPattern_get_text.
  match goal with
  | |- context [add_lines get_text ?inner (values self) ?q0] =>
      destruct (add_lines_cases inner (values self) q0) as [-> | [lines ->]]
  end.
  - right. reflexivity.
  - left. cbn -[append add_entry].
    now rewrite (graph_loop_falsy_child _ _ _ child _ Hin Hchild).
Qed.

Lemma nested_failure_aborts_render_witness :
  let broken :=
    Build_SPARQLGraphPattern false false
      [Triple "?person" "ex:hasAge" "?age"] [PyStr "?age > 30"] [] [] in
  let query :=
    Build_SPARQLSelectQuery [] (Pattern
      (Build_SPARQLGraphPattern false false [Pattern broken] [] [] []))
      false LimitFalse [] [] in
  let t := Triple "?person" "rdf:type" "ex:Person" in
  SPARQLGraphPattern_get_text get_text broken 1 = RStr ""
  /\ SPARQLSelectQuery_get_text get_text query 2 = RStr ""
  /\ SPARQLGraphPattern_get_text get_text
       (Build_SPARQLGraphPattern false false [t; Pattern broken] [] [] []) 0
     = RFalse
  /\ SPARQLGraphPattern_get_text get_text
       (Build_SPARQLGraphPattern true false [t; Select query] [] [] []) 0
     = RFalse.
Proof.
  intros broken query t.
  assert (Hbroken : SPARQLGraphPattern_get_text get_text broken (0 + 1)
                    = RStr "") by reflexivity.
  assert (Hquery : SPARQLSelectQuery_get_text get_text query (0 + 2)
                   = RStr "") by reflexivity.
  split; [exact Hbroken | split; [exact Hquery | split]].
  - destruct (nested_failure_aborts_render
                (Build_SPARQLGraphPattern false false [t; Pattern broken]
                   [] [] []) 0 (Pattern broken)) as [H | H].
    + cbn. right. left. reflexivity.
    + left. exists broken. split; [reflexivity|]. unfold falsy.
      now rewrite Hbroken.
    + exact H.
    + discriminate H.
  - destruct (nested_failure_aborts_render
                (Build_SPARQLGraphPattern true false [t; Select query]
                   [] [] []) 0 (Select query)) as [H | H].
    + cbn. right. left. reflexivity.
    + right. exists query. split; [reflexivity|]. unfold falsy.
      now rewrite Hquery.
    + exact H.
    + discriminate H.
Defined.

(** ** The shape of a pattern's text *)

Lemma pattern_text_cases (self : SPARQLGraphPattern) (d : Z) :
  let outer := Py.mul d "   " in
  let opening :=
    if is_optional self then outer ++ "OPTIONAL {" ++ LF
    else if is_union self
         then outer ++ "UNION" ++ LF ++ outer ++ "{" ++ LF
         else outer ++ "{" ++ LF in
  SPARQLGraphPattern_get_text get_text self d = RFalse
  \/ SPARQLGraphPattern_get_text get_text self d = RStr ""
  \/ exists content,
      SPARQLGraphPattern_get_text get_text self d
      = RStr (opening ++ content ++ outer ++ "}" ++ LF).
Proof.
  intros outer opening.
  unfold SPARQLGraphPattern_get_text.
  fold outer. fold opening.
  generalize (Py.mul (d + 1) "   "). intros inner.
  destruct (add_lines_cases inner (values self) opening) as [-> | [l1 ->]];
    [now right; left|].
  cbn -[append add_entry add_lines].
  destruct (graph_loop_cases d inner (graph self) (opening ++ l1))
    as [-> | [l2 ->]]; [now left|].
  cbn -[append add_entry add_lines].
  destruct (add_lines_cases inner (bindings self) ((opening ++ l1) ++ l2))
    as [-> | [l3 ->]]; [now right; left|].
  cbn -[append add_entry add_lines].
  destruct (add_lines_cases inner (filters self)
              (((opening ++ l1) ++ l2) ++ l3)) as [-> | [l4 ->]];
    [now right; left|].
  cbn -[append add_entry add_lines].
  right. right. exists (l1 ++ l2 ++ l3 ++ l4).
  now rewrite !append_assoc_r.
Qed.

(** A text that is not falsy ends with a line break, which is what
    [[:-1]] removes from it. *)
Lemma pattern_text_ends_with_LF (self : SPARQLGraphPattern) (d : Z) :
  truthy (SPARQLGraphPattern_get_text get_text self d) = true ->
  exists body,
    SPARQLGraphPattern_get_text get_text self d = RStr (body ++ LF)
    /\ Py.drop_last (body ++ LF) = body.
Proof.
  intros Ht.
  destruct (pattern_text_cases self d) as [E | [E | [content E]]];
    try (rewrite E in Ht; discriminate).
  rewrite E. eexists. split; [|apply drop_last_LF].
  now rewrite <- !append_assoc_r.
Qed.

(** ** Trees of admitted objects render *)

Lemma get_text_found (x : pyobj) :
  has_get_text x = true -> exists r, get_text x None = Normal r.
Proof. destruct x; try discriminate; intros _; cbn; now eexists. Qed.

Lemma add_lines_total (inner : string) (xs : list pyobj)
  (query_text : string) :
  Forall (fun x => has_get_text x = true) xs ->
  exists lines,
    add_lines get_text inner xs query_text = Normal (query_text ++ lines).
Proof.
  intros H. revert query_text. unfold add_lines.
  induction H as [|x xs Hx _ IH]; intros query_text; cbn -[append].
  - exists "". now rewrite append_empty_r.
  - destruct (get_text_found x Hx) as [r ->]. cbn -[append].
    destruct (IH (query_text ++ inner ++ format r ++ LF)) as [lines ->].
    exists ((inner ++ format r ++ LF) ++ lines). now rewrite append_assoc_r.
Qed.

Lemma add_prefixes_total (prefixes : list pyobj) (query_text : string) :
  Forall (fun x => is_Prefix x = true) prefixes ->
  exists lines,
    add_prefixes get_text prefixes query_text = Normal (query_text ++ lines).
Proof.
  intros H. revert query_text. unfold add_prefixes.
  induction H as [|x xs Hx _ IH]; intros query_text; cbn -[append].
  - exists "". now rewrite append_empty_r.
  - destruct x; try discriminate. cbn -[append].
    match goal with |- context [for_each _ xs ?q] => destruct (IH q) as [l ->] end.
    eexists. now rewrite append_assoc_r.
Qed.

Lemma group_by_total (outer : string) (groups : list pyobj)
  (query_text : string) :
  Forall (fun x => is_GroupBy x = true) groups ->
  exists lines,
    for_each (fun group query_text =>
                r <- get_text group None ;;
                Normal (query_text ++ LF ++ outer ++ format r))
             groups query_text
    = Normal (query_text ++ lines).
Proof.
  intros H. revert query_text.
  induction H as [|x xs Hx _ IH]; intros query_text; cbn -[append].
  - exists "". now rewrite append_empty_r.
  - destruct x; try discriminate. cbn -[append].
    match goal with |- context [for_each _ xs ?q] => destruct (IH q) as [l ->] end.
    eexists. now rewrite append_assoc_r.
Qed.

Lemma truthy_append_r (a b : string) :
  truthy (RStr b) = true -> truthy (RStr (a ++ b)) = true.
Proof. destruct a; [trivial | reflexivity]. Qed.

Lemma Forall_has_get_text (test : pyobj -> bool) (xs : list pyobj) :
  (forall x, test x = true -> has_get_text x = true) ->
  Forall (fun x => test x = true) xs ->
  Forall (fun x => has_get_text x = true) xs.
Proof. intros Himp H. eapply Forall_impl; [|exact H]. exact Himp. Qed.

(** A tree of admitted objects renders: the text of such a pattern and of
    such a select query is a non-empty string, never [False]. *)
Lemma built_objects_render :
  (forall p, built_pattern p ->
     forall d, truthy (SPARQLGraphPattern_get_text get_text p d) = true)
  /\ (forall entries, built_graph entries ->
        forall d inner query_text,
        exists text,
          for_each (add_entry get_text d inner) entries query_text
          = Normal (query_text ++ text))
  /\ (forall q, built_select q ->
        forall d, truthy (SPARQLSelectQuery_get_text get_text q d) = true)
  /\ (forall w, built_where w ->
        forall d query_text,
        exists text,
          match w with
          | PyNone => Normal query_text
          | _ => add_pattern get_text d w query_text
          end = Normal (query_text ++ text)).
Proof.
  apply built_mutind.
  - (* pattern *)
    intros optional union g f b v _ IHg Hf Hb Hv d.
    unfold SPARQLGraphPattern_get_text. cbn [graph filters bindings values].
    set (inner := Py.mul (d + 1) "   ").
    match goal with
    | |- context [add_lines get_text inner v ?q] =>
        destruct (add_lines_total inner v q) as [l1 ->]
    end.
    { revert Hv. apply Forall_has_get_text. now intros []. }
    cbn [bind].
    match goal with
    | |- context [for_each _ g ?q] => destruct (IHg d inner q) as [l2 ->]
    end.
    cbn [bind].
    match goal with
    | |- context [add_lines get_text inner b ?q] =>
        destruct (add_lines_total inner b q) as [l3 ->]
    end.
    { revert Hb. apply Forall_has_get_text. now intros []. }
    cbn [bind].
    match goal with
    | |- context [add_lines get_text inner f ?q] =>
        destruct (add_lines_total inner f q) as [l4 ->]
    end.
    { revert Hf. apply Forall_has_get_text. now intros []. }
    cbn [bind try_except].
    do 2 apply truthy_append_r. reflexivity.
  - (* empty graph *)
    intros d inner query_text. exists "". cbn. now rewrite append_empty_r.
  - (* a triple *)
    intros s p o rest _ IH d inner query_text. cbn -[append].
    match goal with |- context [for_each _ rest ?q] => destruct (IH d inner q) as [l ->] end.
    eexists. now rewrite append_assoc_r.
  - (* a nested pattern *)
    intros p rest _ IHp _ IH d inner query_text.
    cbn -[append SPARQLGraphPattern_get_text]. rewrite IHp.
    specialize (IHp (d + 1)).
    destruct (SPARQLGraphPattern_get_text get_text p (d + 1)) as [s|];
      [|discriminate].
    cbn -[append].
    match goal with |- context [for_each _ rest ?q] => destruct (IH d inner q) as [l ->] end.
    eexists. now rewrite append_assoc_r.
  - (* a nested select query *)
    intros q rest _ IHq _ IH d inner query_text.
    cbn -[append SPARQLSelectQuery_get_text]. rewrite IHq.
    match goal with |- context [for_each _ rest ?q] => destruct (IH d inner q) as [l ->] end.
    eexists. now rewrite append_assoc_r.
  - (* select query *)
    intros prefixes where_ distinct limit variables group_by Hp _ IHw Hg d.
    unfold SPARQLSelectQuery_get_text.
    cbn [SelectQuery.prefixes SelectQuery.where_ SelectQuery.distinct
           SelectQuery.limit SelectQuery.variables SelectQuery.group_by].
    destruct (add_prefixes_total prefixes "" Hp) as [l1 ->]. cbn [bind].
    match goal with
    | |- context [add_pattern get_text d where_ ?q] =>
        destruct (IHw d q) as [l2 ->]
    end.
    cbn [bind].
    match goal with
    | |- context [for_each _ group_by ?q] =>
        destruct (group_by_total (Py.mul d "   ") group_by q Hg) as [l3 ->]
    end.
    cbn [bind try_except].
    destruct variables, limit as [|n]; try destruct (n =? 0);
      rewrite !append_assoc_r; cbn [append]; apply truthy_append_r;
      reflexivity.
  - (* where unset *)
    intros d query_text. exists "". now rewrite append_empty_r.
  - (* where set *)
    intros p _ IHp d query_text.
    unfold add_pattern. rewrite get_text_Pattern. cbn [depth_of bind].
    specialize (IHp d).
    destruct (SPARQLGraphPattern_get_text get_text p d) as [s|];
      [|discriminate].
    cbn [slice_drop_last bind]. now eexists.
Qed.

(** ** C8 *)

Lemma shift_shift (a b : string) (c : completion string) :
  shift a (shift b c) = shift (a ++ b) c.
Proof. destruct c; cbn; [now rewrite append_assoc_r | reflexivity ..]. Qed.









(** ** Queries *)

Lemma add_prefixes_prefix_objects (decls : list (string * string))
  (query_text : string) :
  add_prefixes get_text (prefix_objects decls) query_text
  = Normal (query_text ++ prefix_lines decls).
Proof.
  unfold add_prefixes. revert query_text.
  induction decls as [|d decls IH]; intros query_text.
  - cbn. now rewrite append_empty_r.
  - cbn -[append]. rewrite IH. now rewrite !append_assoc_r.
Qed.

Lemma add_pattern_Pattern (d : Z) (p : SPARQLGraphPattern)
  (query_text : string) :
  SPARQLGraphPattern_get_text get_text p d <> RFalse ->
  add_pattern get_text d (Pattern p) query_text
  = Normal (query_text
              ++ Py.drop_last
                   (format (SPARQLGraphPattern_get_text get_text p d))).
Proof.
  intros H. unfold add_pattern. rewrite get_text_Pattern.
  cbn -[append SPARQLGraphPattern_get_text].
  destruct (SPARQLGraphPattern_get_text get_text p d); [reflexivity|].
  now elim H.
Qed.

Lemma add_section_slot (d : Z) (token : string)
  (slot : option SPARQLGraphPattern) (query_text : string) :
  (forall p, slot = Some p ->
             SPARQLGraphPattern_get_text get_text p d <> RFalse) ->
  add_section get_text d token (slot_obj slot) query_text
  = Normal (query_text ++ section_text d token slot).
Proof.
  intros H. destruct slot as [p|]; cbn [slot_obj add_section section_text].
  - rewrite add_pattern_Pattern by now apply H.
    now rewrite !append_assoc_r.
  - now rewrite append_empty_r.
Qed.

Lemma update_text_sections (decls : list (string * string))
  (delete insert where_ : option SPARQLGraphPattern) (d : Z) :
  (forall p, In (Some p) [delete; insert; where_] ->
             SPARQLGraphPattern_get_text get_text p d <> RFalse) ->
  SPARQLUpdateQuery_get_text get_text
    (Build_SPARQLUpdateQuery (prefix_objects decls) (slot_obj where_)
       (slot_obj delete) (slot_obj insert)) d
  = RStr (prefix_lines decls
            ++ section_text d "DELETE" delete
            ++ section_text d "INSERT" insert
            ++ section_text d "WHERE" where_).
Proof.
  intros H. unfold SPARQLUpdateQuery_get_text.
  cbn [UpdateQuery.prefixes UpdateQuery.delete UpdateQuery.insert
         UpdateQuery.where_].
  rewrite add_prefixes_prefix_objects. cbn [bind].
  rewrite add_section_slot by (intros p ->; apply H; cbn; auto).
  cbn [bind].
  rewrite add_section_slot by (intros p ->; apply H; cbn; auto).
  cbn [bind].
  rewrite add_section_slot by (intros p ->; apply H; cbn; auto).
  cbn [bind try_except]. now rewrite !append_assoc_r.
Qed.

(** ** C7 *)

Lemma add_section_slot_cases (d : Z) (token : string)
  (slot : option SPARQLGraphPattern) (query_text : string) :
  add_section get_text d token (slot_obj slot) query_text
  = if slot_fails d slot then Raise
    else Normal (query_text ++ section_text d token slot).
Proof.
  destruct slot as [p|]; cbn [slot_obj slot_fails add_section section_text].
  - unfold add_pattern. rewrite get_text_Pattern. cbn [depth_of bind].
    destruct (SPARQLGraphPattern_get_text get_text p d) as [s|];
      cbn [bind slice_drop_last format]; [|reflexivity].
    now rewrite !append_assoc_r.
  - now rewrite append_empty_r.
Qed.

(** C7 as the code has it: an update query renders its prefixes and then,
    in this order, a DELETE, an INSERT and a WHERE section, provided that
    no pattern that is set answers False; if one does, the text of the
    query is the empty string.  A section is there exactly when its
    pattern was set, and consists of a line break, the indentation, the
    token, a space and the text of the pattern without its last
    character, which is the final line break of a pattern that renders.
    With a delete and a where pattern set, neither answering False, and no
    insert pattern, the text is the prefixes, the DELETE section and the
    WHERE section: no INSERT section is emitted. *)
Theorem update_query_sections (decls : list (string * string))
  (indentation_depth : Z) :
  let outer := Py.mul indentation_depth "   " in
  let text_of p :=
    format (SPARQLGraphPattern_get_text get_text p indentation_depth) in
  (forall d w,
      SPARQLGraphPattern_get_text get_text d indentation_depth <> RFalse ->
      SPARQLGraphPattern_get_text get_text w indentation_depth <> RFalse ->
      SPARQLUpdateQuery_get_text get_text
        (Build_SPARQLUpdateQuery (prefix_objects decls) (Pattern w)
           (Pattern d) PyNone) indentation_depth
      = RStr (prefix_lines decls
                ++ LF ++ outer ++ "DELETE " ++ Py.drop_last (text_of d)
                ++ LF ++ outer ++ "WHERE " ++ Py.drop_last (text_of w)))
  /\ (forall delete insert where_,
        SPARQLUpdateQuery_get_text get_text
          (Build_SPARQLUpdateQuery (prefix_objects decls) (slot_obj where_)
             (slot_obj delete) (slot_obj insert)) indentation_depth
        = if slot_fails indentation_depth delete
             || slot_fails indentation_depth insert
             || slot_fails indentation_depth where_
          then RStr ""
          else RStr (prefix_lines decls
                       ++ section_text indentation_depth "DELETE" delete
                       ++ section_text indentation_depth "INSERT" insert
                       ++ section_text indentation_depth "WHERE" where_))
  /\ (forall token, section_text indentation_depth token None = "")
  /\ (forall token p,
        section_text indentation_depth token (Some p)
        = LF ++ outer ++ token ++ " " ++ Py.drop_last (text_of p))
  /\ (forall p,
        truthy (SPARQLGraphPattern_get_text get_text p indentation_depth)
        = true ->
        text_of p = Py.drop_last (text_of p) ++ LF).
Proof.
  intros outer text_of. split; [|split; [|split; [|split]]].
  - intros d w Hd Hw.
    change (Pattern w) with (slot_obj (Some w)).
    change (Pattern d) with (slot_obj (Some d)).
    change PyNone with (slot_obj None).
    rewrite (update_text_sections decls (Some d) None (Some w)).
    + cbn [section_text]. fold outer. unfold text_of.
      cbn -[Py.mul Py.drop_last SPARQLGraphPattern_get_text append].
      now rewrite !append_assoc_r.
    + intros p [[= <-] | [[=] | [[= <-] | []]]]; assumption.
  - intros delete insert where_. unfold SPARQLUpdateQuery_get_text.
    cbn [UpdateQuery.prefixes UpdateQuery.delete UpdateQuery.insert
           UpdateQuery.where_].
    rewrite add_prefixes_prefix_objects. cbn [bind].
    rewrite add_section_slot_cases.
    destruct (slot_fails indentation_depth delete); [reflexivity|].
    cbn [bind orb]. rewrite add_section_slot_cases.
    destruct (slot_fails indentation_depth insert); [reflexivity|].
    cbn [bind orb]. rewrite add_section_slot_cases.
    destruct (slot_fails indentation_depth where_); [reflexivity|].
    cbn [bind try_except]. now rewrite !append_assoc_r.
  - reflexivity.
  - reflexivity.
  - intros p Ht. unfold text_of.
    destruct (pattern_text_ends_with_LF p indentation_depth Ht)
      as (body & -> & E).
    cbn [format]. now rewrite E.
Qed.

Lemma update_query_sections_witness :
  let delete_pattern :=
    calls (SPARQLGraphPattern_init false false)
      [fun p => add_triples p
                  (PyList [Triple "?person" "ex:hasAge" "?age"])] in
  let where_pattern :=
    calls (SPARQLGraphPattern_init false false)
      [fun p => add_triples p
                  (PyList [Triple "?person" "rdf:type" "ex:Person";
                           Triple "?person" "ex:hasAge" "?age"])] in
  let update_query :=
    calls (SPARQLUpdateQuery_init false)
      [fun q => add_prefix q (Prefix "ex" "http://www.example.com#");
       fun q => set_delete_pattern q (Pattern delete_pattern);
       fun q => set_where_pattern q (Pattern where_pattern)] in
  let text :=
    "PREFIX ex: <http://www.example.com#>" ++ LF
      ++ LF ++ "DELETE {" ++ LF
      ++ "   ?person ex:hasAge ?age . " ++ LF
      ++ "}"
      ++ LF ++ "WHERE {" ++ LF
      ++ "   ?person rdf:type ex:Person . " ++ LF
      ++ "   ?person ex:hasAge ?age . " ++ LF
      ++ "}" in
  SPARQLGraphPattern_get_text get_text delete_pattern 0 <> RFalse
  /\ SPARQLGraphPattern_get_text get_text where_pattern 0 <> RFalse
  /\ SPARQLUpdateQuery_get_text get_text update_query 0 = RStr text
  /\ String.index 0 "INSERT" text = None.
Proof.
  intros delete_pattern where_pattern update_query text.
  assert (Hd : SPARQLGraphPattern_get_text get_text delete_pattern 0
               <> RFalse) by (intros E; vm_compute in E; discriminate E).
  assert (Hw : SPARQLGraphPattern_get_text get_text where_pattern 0
               <> RFalse) by (intros E; vm_compute in E; discriminate E).
  split; [exact Hd|]. split; [exact Hw|]. split; [|reflexivity].
  destruct (update_query_sections [("ex", "http://www.example.com#")] 0)
    as (Hcase & _).
  change update_query
    with (Build_SPARQLUpdateQuery
            (prefix_objects [("ex", "http://www.example.com#")])
            (Pattern where_pattern) (Pattern delete_pattern) PyNone).
  rewrite (Hcase delete_pattern where_pattern Hd Hw).
  reflexivity.
Defined.

(** C7 as it was stated fails: this update query has a delete and a where
    pattern set and no insert pattern; its delete pattern nests a pattern
    that holds a string among its filters and so answers False; the text
    of the query is the empty string, with no DELETE and no WHERE
    section. *)
Lemma update_query_sections_counterexample :
  UpdateQuery.delete update_with_failing_delete
  = Pattern delete_with_failing_child
  /\ is_SPARQLGraphPattern (UpdateQuery.where_ update_with_failing_delete)
     = true
  /\ UpdateQuery.insert update_with_failing_delete = PyNone
  /\ SPARQLGraphPattern_get_text get_text delete_with_failing_child 0
     = RFalse
  /\ SPARQLUpdateQuery_get_text get_text update_with_failing_delete 0
     = RStr ""
  /\ ~ (exists before middle after,
          SPARQLUpdateQuery_get_text get_text update_with_failing_delete 0
          = RStr (before ++ "DELETE " ++ middle ++ "WHERE " ++ after)).
Proof.
  repeat (split; [reflexivity|]).
  intros (before & middle & after & H).
  assert (E : SPARQLUpdateQuery_get_text get_text update_with_failing_delete 0
              = RStr "") by reflexivity.
  rewrite E in H. destruct before; discriminate H.
Qed.

(** ** C2 and C9: select queries *)

Lemma two_triple_pattern_text (optional union : bool)
  (s1 p1 o1 s2 p2 o2 : string) :
  SPARQLGraphPattern_get_text get_text
    (Build_SPARQLGraphPattern optional union
       [Triple s1 p1 o1; Triple s2 p2 o2] [] [] []) 0
  = RStr (((if optional then "OPTIONAL {"
            else if union then "UNION" ++ LF ++ "{" else "{")
             ++ LF
             ++ "   " ++ s1 ++ " " ++ p1 ++ " " ++ o1 ++ " . " ++ LF
             ++ "   " ++ s2 ++ " " ++ p2 ++ " " ++ o2 ++ " . " ++ LF
             ++ "}") ++ LF).
Proof.
  unfold SPARQLGraphPattern_get_text.
  destruct optional, union; str_norm; reflexivity.
Qed.

(** C2: a select query with one prefix, two variables, a where pattern of
    two triples, one group-by and the limit 100 renders, in this order and
    with nothing in between: the prefix line; an empty line; "SELECT ",
    then "DISTINCT " when the flag is set, then the two variables separated
    by a space; on the next line "WHERE " and the text of the where pattern
    without its final line break; the GROUP BY line; the line "LIMIT 100". *)
Theorem select_query_layout (prefix namespace v1 v2 : string)
  (optional union : bool) (s1 p1 o1 s2 p2 o2 : string)
  (group : list string) (distinct : bool) :
  let where_pattern :=
    Build_SPARQLGraphPattern optional union
      [Triple s1 p1 o1; Triple s2 p2 o2] [] [] [] in
  let where_block :=
    (if optional then "OPTIONAL {"
     else if union then "UNION" ++ LF ++ "{" else "{")
      ++ LF
      ++ "   " ++ s1 ++ " " ++ p1 ++ " " ++ o1 ++ " . " ++ LF
      ++ "   " ++ s2 ++ " " ++ p2 ++ " " ++ o2 ++ " . " ++ LF
      ++ "}" in
  SPARQLGraphPattern_get_text get_text where_pattern 0
  = RStr (where_block ++ LF)
  /\ SPARQLSelectQuery_get_text get_text
       (Build_SPARQLSelectQuery [Prefix prefix namespace]
          (Pattern where_pattern) distinct (LimitInt 100) [v1; v2]
          [GroupBy group]) 0
     = RStr ("PREFIX " ++ prefix ++ ": <" ++ namespace ++ ">" ++ LF
               ++ LF ++ "SELECT " ++ (if distinct then "DISTINCT " else "")
               ++ v1 ++ " " ++ v2
               ++ LF ++ "WHERE " ++ where_block
               ++ LF ++ "GROUP BY " ++ Py.join " " group
               ++ LF ++ "LIMIT 100").
Proof.
  intros where_pattern where_block.
  assert (Hw : SPARQLGraphPattern_get_text get_text where_pattern 0
               = RStr (where_block ++ LF))
    by apply two_triple_pattern_text.
  split; [exact Hw|].
  unfold SPARQLSelectQuery_get_text, add_pattern.
  cbn [SelectQuery.prefixes SelectQuery.where_ SelectQuery.distinct
         SelectQuery.limit SelectQuery.variables SelectQuery.group_by].
  rewrite get_text_Pattern. cbn [depth_of]. rewrite Hw.
  cbn [bind slice_drop_last]. rewrite drop_last_LF.
  change (Py.str_of_int 100) with "100".
  generalize where_block. intros block.
  destruct distinct; str_norm; reflexivity.
Qed.

(** C9: a select query whose where pattern was never set, with no group-by
    and no limit, still ends with the token "WHERE " and nothing after it;
    the token is neither left out nor replaced by an error. *)
Theorem select_without_where_pattern (decls : list (string * string))
  (distinct : bool) (variables : list string) (indentation_depth : Z) :
  let outer := Py.mul indentation_depth "   " in
  SPARQLSelectQuery_get_text get_text
    (Build_SPARQLSelectQuery (prefix_objects decls) PyNone distinct
       LimitFalse variables []) indentation_depth
  = RStr (prefix_lines decls
            ++ LF ++ outer ++ "SELECT "
            ++ (if distinct then "DISTINCT " else "")
            ++ match variables with
               | [] => " *"
               | _ :: _ => Py.join " " variables
               end
            ++ LF ++ outer ++ "WHERE ").
Proof.
  intros outer. unfold SPARQLSelectQuery_get_text.
  cbn [SelectQuery.prefixes SelectQuery.where_ SelectQuery.distinct
         SelectQuery.limit SelectQuery.variables SelectQuery.group_by].
  rewrite add_prefixes_prefix_objects. fold outer.
  cbn [bind for_each try_except].
  destruct variables, distinct; now rewrite !append_assoc_r.
Qed.


(** ** The tests of the repository

    Each example builds the objects of one test of
    [tests/test_SPARQLQueryBuilder.py] with the same builder calls and
    compares the text, its runs of spaces squeezed as the test does, with
    the string the test expects. *)

Example test_simple_pattern :
  let pattern :=
    calls (SPARQLGraphPattern_init false false)
      [fun p => add_triples p (PyList [person_is_Person; person_hasName])] in
  generate_assert_string (Pattern pattern)
  = "{" ++ LF ++ " ?person rdf:type ex:Person . " ++ LF
        ++ " ?person ex:hasName ?name . " ++ LF ++ "}" ++ LF.
Proof. reflexivity. Qed.

Example test_optional_pattern :
  let optional_pattern :=
    calls (SPARQLGraphPattern_init true false)
      [fun p => add_triples p (PyList [person_hasAge])] in
  let main_pattern :=
    calls (SPARQLGraphPattern_init false false)
      [fun p => add_triples p (PyList [person_is_Person; person_hasName]);
       fun p => add_nested_graph_pattern p (Pattern optional_pattern)] in
  generate_assert_string (Pattern main_pattern)
  = "{" ++ LF ++ " ?person rdf:type ex:Person . " ++ LF
        ++ " ?person ex:hasName ?name . " ++ LF
        ++ " OPTIONAL {" ++ LF ++ " ?person ex:hasAge ?age . " ++ LF
        ++ " }" ++ LF ++ "}" ++ LF.
Proof. reflexivity. Qed.

Example test_binding_clause :
  let first_pattern :=
    calls (SPARQLGraphPattern_init false false)
      [fun p => add_triples p (PyList [person_is_Person; person_hasName])] in
  let second_pattern :=
    calls (SPARQLGraphPattern_init false true)
      [fun p => add_triples p
                  (PyList [Triple "?person" "rdf:type" "ex:User";
                           Triple "?person" "ex:hasNickname" "?name"])] in
  let main_pattern :=
    calls (SPARQLGraphPattern_init false false)
      [fun p => add_nested_graph_pattern p (Pattern first_pattern);
       fun p => add_nested_graph_pattern p (Pattern second_pattern)] in
  generate_assert_string (Pattern main_pattern)
  = "{" ++ LF ++ " {" ++ LF ++ " ?person rdf:type ex:Person . " ++ LF
        ++ " ?person ex:hasName ?name . " ++ LF ++ " }" ++ LF
        ++ " UNION" ++ LF
        ++ " {" ++ LF ++ " ?person rdf:type ex:User . " ++ LF
        ++ " ?person ex:hasNickname ?name . " ++ LF ++ " }" ++ LF
        ++ "}" ++ LF.
Proof. reflexivity. Qed.

Example test_values :
  let uris := ["https://www.wikidata.org/entity/42";
               "https://www.wikidata.org/entity/108"] in
  let pattern :=
    calls (SPARQLGraphPattern_init false false)
      [fun p => add_value p (Values uris "?friend");
       fun p => add_triples p
                  (PyList [person_is_Person;
                           Triple "?person" "foaf:knows" "?friend"])] in
  generate_assert_string (Pattern pattern)
  = "{" ++ LF
        ++ " VALUES ?friend {<https://www.wikidata.org/entity/42> "
        ++ "<https://www.wikidata.org/entity/108>}" ++ LF
        ++ " ?person rdf:type ex:Person . " ++ LF
        ++ " ?person foaf:knows ?friend . " ++ LF ++ "}" ++ LF.
Proof. reflexivity. Qed.

Example test_filter_bind_and_if_clauses :
  let pattern :=
    calls (SPARQLGraphPattern_init false false)
      [fun p => add_triples p (PyList [person_is_Person; person_hasAge]);
       fun p => add_filter p (Filter "?age < 65");
       fun p => add_binding p (Binding (PyStr "?age") "?years_alive");
       fun p => add_binding p
                  (Binding (IfClause (PyStr "?age >= 18") (PyStr "'adult'")
                              (PyStr "'minor'")) "?status")] in
  generate_assert_string (Pattern pattern)
  = "{" ++ LF ++ " ?person rdf:type ex:Person . " ++ LF
        ++ " ?person ex:hasAge ?age . " ++ LF
        ++ " BIND (?age AS ?years_alive)" ++ LF
        ++ " BIND (IF (?age >= 18, 'adult', 'minor') AS ?status)" ++ LF
        ++ " FILTER (?age < 65)" ++ LF ++ "}" ++ LF.
Proof. reflexivity. Qed.

Example test_bind_with_recursive_nesting :
  let pattern :=
    calls (SPARQLGraphPattern_init false false)
      [fun p => add_triples p (PyList [person_is_Person]);
       fun p => add_binding p
                  (Binding (IfClause (Bound (PyStr "?address"))
                              (PyStr "?address") (PyStr "'Unknown'"))
                     "?address")] in
  generate_assert_string (Pattern pattern)
  = "{" ++ LF ++ " ?person rdf:type ex:Person . " ++ LF
        ++ " BIND (IF (BOUND (?address), ?address, 'Unknown') AS ?address)"
        ++ LF ++ "}" ++ LF.
Proof. reflexivity. Qed.

Example test_sparql_select_query :
  let where_pattern :=
    calls (SPARQLGraphPattern_init false false)
      [fun p => add_triples p
                  (PyList [person_is_Person; person_hasAge;
                           Triple "?person" "ex:address" "?address"])] in
  let select_query :=
    calls (SPARQLSelectQuery_init true (LimitInt 100) false)
      [fun q => add_prefix q (Prefix "ex" "http://www.example.com#");
       fun q => add_variables q (PyList [PyStr "?person"; PyStr "?age"]);
       fun q => set_where_pattern q (Pattern where_pattern);
       fun q => add_group_by q (GroupBy ["?age"])] in
  generate_assert_string (Select select_query)
  = "PREFIX ex: <http://www.example.com#>" ++ LF ++ LF
      ++ "SELECT DISTINCT ?person ?age" ++ LF ++ "WHERE {" ++ LF
      ++ " ?person rdf:type ex:Person . " ++ LF
      ++ " ?person ex:hasAge ?age . " ++ LF
      ++ " ?person ex:address ?address . " ++ LF ++ "}" ++ LF
      ++ "GROUP BY ?age" ++ LF
      ++ "LIMIT 100".
Proof. reflexivity. Qed.

Example test_sparql_update_query :
  let delete_pattern :=
    calls (SPARQLGraphPattern_init false false)
      [fun p => add_triples p (PyList [person_hasAge])] in
  let insert_pattern :=
    calls (SPARQLGraphPattern_init false false)
      [fun p => add_triples p (PyList [Triple "?person" "ex:hasAge" "32"])] in
  let where_pattern :=
    calls (SPARQLGraphPattern_init false false)
      [fun p => add_triples p (PyList [person_is_Person; person_hasAge])] in
  let update_query :=
    calls (SPARQLUpdateQuery_init false)
      [fun q => add_prefix q (Prefix "ex" "http://www.example.com#");
       fun q => set_delete_pattern q (Pattern delete_pattern);
       fun q => set_insert_pattern q (Pattern insert_pattern);
       fun q => set_where_pattern q (Pattern where_pattern)] in
  generate_assert_string (Update update_query)
  = "PREFIX ex: <http://www.example.com#>" ++ LF ++ LF
      ++ "DELETE {" ++ LF ++ " ?person ex:hasAge ?age . " ++ LF ++ "}" ++ LF
      ++ "INSERT {" ++ LF ++ " ?person ex:hasAge 32 . " ++ LF ++ "}" ++ LF
      ++ "WHERE {" ++ LF ++ " ?person rdf:type ex:Person . " ++ LF
      ++ " ?person ex:hasAge ?age . " ++ LF ++ "}".
Proof. reflexivity. Qed.

(** * Further properties *)

(** ** The builder of graph patterns *)

Lemma triples_app (l1 l2 : list pyobj) :
  forallb is_Triple (l1 ++ l2) = forallb is_Triple l1 && forallb is_Triple l2.
Proof. apply forallb_app. Qed.

Lemma pattern_eta (self : SPARQLGraphPattern) :
  Build_SPARQLGraphPattern (is_optional self) (is_union self) (graph self)
    (filters self) (bindings self) (values self) = self.
Proof. now destruct self. Qed.

(** X1: [add_triples] accepts the empty list and then changes nothing;
    two accepted calls in a row store what one call with the two lists
    joined stores. *)
Theorem add_triples_accumulates (self : SPARQLGraphPattern) :
  add_triples self (PyList []) = (self, true)
  /\ (forall l1 l2,
        forallb is_Triple l1 = true -> forallb is_Triple l2 = true ->
        add_triples (fst (add_triples self (PyList l1))) (PyList l2)
        = add_triples self (PyList (l1 ++ l2))).
Proof.
  split.
  - unfold add_triples. cbn. rewrite app_nil_r. now rewrite pattern_eta.
  - intros l1 l2 H1 H2. unfold add_triples, list_of_triples.
    rewrite triples_app, H1, H2. cbn. now rewrite app_assoc.
Qed.

Lemma add_triples_accumulates_witness :
  let self :=
    Build_SPARQLGraphPattern true false
      [Triple "?a" "ex:p" "?b"] [Filter "?b > 1"] [] [] in
  add_triples (fst (add_triples self (PyList [Triple "?b" "ex:q" "?c"])))
    (PyList [Triple "?c" "ex:r" "?d"; Triple "?d" "ex:s" "?e"])
  = (Build_SPARQLGraphPattern true false
       [Triple "?a" "ex:p" "?b"; Triple "?b" "ex:q" "?c";
        Triple "?c" "ex:r" "?d"; Triple "?d" "ex:s" "?e"]
       [Filter "?b > 1"] [] [], true).
Proof.
  intros self.
  rewrite (proj2 (add_triples_accumulates self)
             [Triple "?b" "ex:q" "?c"]
             [Triple "?c" "ex:r" "?d"; Triple "?d" "ex:s" "?e"]
             eq_refl eq_refl).
  reflexivity.
Defined.

Lemma extends_refl (self : SPARQLGraphPattern) : extends self self.
Proof.
  repeat split; exists []; now rewrite app_nil_r.
Qed.

Ltac extends_solve :=
  repeat split; cbn;
  first [ exists []; now rewrite app_nil_r | eexists; reflexivity ].

Ltac split_on_test x :=
  match goal with
  | |- context [list_of_triples x] => destruct (list_of_triples x)
  | |- context [if ?c then _ else _] => destruct c
  end.

(** X2: the seven [add_*] methods of a graph pattern only ever append: the
    two flags stay as the constructor set them, every list keeps its
    elements in place, and a call that returns False leaves the pattern as
    it was.  The six methods that take one object return True exactly
    when they stored it. *)
Theorem add_methods_only_append (self : SPARQLGraphPattern) (x : pyobj) :
  Forall (fun op : SPARQLGraphPattern -> pyobj -> SPARQLGraphPattern * bool =>
            extends self (fst (op self x))
            /\ (snd (op self x) = false -> fst (op self x) = self))
    [add_triples; add_nested_graph_pattern; add_nested_select_query;
     add_filter; add_having; add_binding; add_value]
  /\ Forall (fun op : SPARQLGraphPattern -> pyobj -> SPARQLGraphPattern * bool =>
               snd (op self x) = true <-> fst (op self x) <> self)
       [add_nested_graph_pattern; add_nested_select_query;
        add_filter; add_having; add_binding; add_value].
Proof.
  assert (Hne : forall (l : list pyobj), (l ++ [x])%list <> l).
  { intros l E. apply (f_equal (@List.length pyobj)) in E.
    rewrite length_app in E. cbn in E. lia. }
  split.
  - repeat (apply Forall_cons; [split|]); try apply Forall_nil;
      unfold add_triples, add_nested_graph_pattern, add_nested_select_query,
        add_filter, add_having, add_binding, add_value, graph_append,
        filters_append;
      split_on_test x; cbn [fst snd];
      first [ reflexivity | discriminate | apply extends_refl | extends_solve ].
  - destruct self as [o u g f b v].
    repeat (apply Forall_cons; [|]); try apply Forall_nil;
      unfold add_nested_graph_pattern, add_nested_select_query, add_filter,
        add_having, add_binding, add_value, graph_append, filters_append;
      split_on_test x; cbn; (split; [intros E | intros E; try congruence]);
      try discriminate; try reflexivity;
      intros [=]; eapply Hne; eassumption.
Qed.

Lemma add_methods_only_append_witness :
  let self :=
    Build_SPARQLGraphPattern false true [Triple "?a" "ex:p" "?b"] [] [] [] in
  fst (add_filter self (Having "?b > 1")) = self
  /\ fst (add_having self (Having "?b > 1")) <> self.
Proof.
  intros self.
  destruct (add_methods_only_append self (Having "?b > 1")) as [Happend Hflag].
  split.
  - do 3 apply Forall_inv_tail in Happend. apply Forall_inv in Happend.
    apply (proj2 Happend). reflexivity.
  - do 3 apply Forall_inv_tail in Hflag. apply Forall_inv in Hflag.
    apply (proj1 Hflag). reflexivity.
Defined.

(** X3: methods that fill different lists of a pattern can be called in
    either order: the pattern, and so its text, is the same.  This holds
    for any arguments, accepted or not. *)
Theorem adds_to_different_lists_commute (self : SPARQLGraphPattern)
  (triples nested filter having binding value : pyobj) :
  let graph_calls :=
    [ (fun p => add_triples p triples);
      (fun p => add_nested_graph_pattern p nested);
      (fun p => add_nested_select_query p nested) ] in
  let filter_calls :=
    [ (fun p => add_filter p filter); (fun p => add_having p having) ] in
  let binding_call := fun p => add_binding p binding in
  let value_call := fun p => add_value p value in
  (forall g f, In g graph_calls -> In f filter_calls ->
     calls self [g; f] = calls self [f; g])
  /\ (forall g, In g graph_calls ->
        calls self [g; binding_call] = calls self [binding_call; g]
        /\ calls self [g; value_call] = calls self [value_call; g])
  /\ (forall f, In f filter_calls ->
        calls self [f; binding_call] = calls self [binding_call; f]
        /\ calls self [f; value_call] = calls self [value_call; f])
  /\ calls self [binding_call; value_call]
     = calls self [value_call; binding_call].
Proof.
  intros graph_calls filter_calls binding_call value_call.
  destruct self as [o u g0 f0 b0 v0].
  unfold calls, graph_calls, filter_calls, binding_call, value_call.
  repeat split; intros; cbn [In] in *;
    repeat match goal with
      | H : _ \/ _ |- _ => destruct H
      | H : False |- _ => destruct H
      | H : _ = _ |- _ => subst
      end;
    cbn [fold_left];
    unfold add_triples, add_nested_graph_pattern, add_nested_select_query,
      add_filter, add_having, add_binding, add_value, graph_append,
      filters_append;
    repeat match goal with
      | |- context [list_of_triples ?x] => destruct (list_of_triples x)
      | |- context [if ?c then _ else _] => destruct c
      end; reflexivity.
Qed.

Lemma adds_to_different_lists_commute_witness :
  let self := SPARQLGraphPattern_init false false in
  let t := PyList [Triple "?person" "ex:hasAge" "?age"] in
  let f := Filter "?age < 65" in
  calls self [(fun p => add_triples p t); (fun p => add_filter p f)]
  = calls self [(fun p => add_filter p f); (fun p => add_triples p t)].
Proof.
  intros self t f.
  destruct (adds_to_different_lists_commute self t PyNone f PyNone PyNone
              PyNone) as [H _].
  apply (H (fun p => add_triples p t) (fun p => add_filter p f)).
  - left. reflexivity.
  - left. reflexivity.
Defined.

(** ** The text of a graph pattern *)

Lemma add_lines_exact (inner : string) (xs : list pyobj)
  (query_text : string) :
  Forall (fun x => has_get_text x = true) xs ->
  add_lines get_text inner xs query_text
  = Normal (query_text ++ lines_text inner xs).
Proof.
  intros H. revert query_text. unfold add_lines.
  induction H as [|x xs Hx _ IH]; intros query_text; cbn -[append].
  - now rewrite append_empty_r.
  - unfold text_of. destruct (get_text_found x Hx) as [r ->]. cbn -[append].
    rewrite IH. now rewrite !append_assoc_r.
Qed.

Lemma graph_loop_exact (d : Z) (entries : list pyobj) (query_text : string) :
  built_graph entries ->
  for_each (add_entry get_text d (Py.mul (d + 1) "   ")) entries query_text
  = Normal (query_text ++ graph_text d entries).
Proof.
  intros H. revert query_text.
  induction H as [| s p o rest _ IH | p rest Hp _ IH | q rest Hq _ IH];
    intros query_text.
  - cbn. now rewrite append_empty_r.
  - cbn -[append Py.mul]. rewrite IH. now rewrite !append_assoc_r.
  - cbn -[append Py.mul SPARQLGraphPattern_get_text].
    pose proof (proj1 built_objects_render p Hp (d + 1)) as Ht. rewrite Ht.
    destruct (SPARQLGraphPattern_get_text get_text p (d + 1)) as [s|];
      [|discriminate].
    cbn -[append Py.mul]. rewrite IH. now rewrite !append_assoc_r.
  - cbn -[append Py.mul SPARQLSelectQuery_get_text].
    pose proof (proj1 (proj2 (proj2 built_objects_render)) q Hq (d + 2))
      as Ht.
    rewrite Ht. rewrite IH. now rewrite !append_assoc_r.
Qed.

(** X5: the text of a pattern whose lists hold the objects its [add_*]
    methods admit, nested as a finite tree, is laid out by kind, not by
    the order of the calls: the opening (with OPTIONAL, or with UNION on
    a line of its own at the outer indentation, or plain), then one line
    per VALUES clause, then the entries of the graph in insertion order
    (a triple on a line at the inner indentation, a nested pattern as its
    own text one level deeper, a nested select query two levels deeper
    between braces at the inner indentation), then one line per BIND, then
    one line per FILTER or HAVING, then the closing brace at the outer
    indentation. *)
Theorem built_pattern_layout (self : SPARQLGraphPattern)
  (indentation_depth : Z) :
  built_pattern self ->
  let outer := Py.mul indentation_depth "   " in
  let inner := Py.mul (indentation_depth + 1) "   " in
  SPARQLGraphPattern_get_text get_text self indentation_depth
  = RStr (opening_text (is_optional self) (is_union self) outer
            ++ lines_text inner (values self)
            ++ graph_text indentation_depth (graph self)
            ++ lines_text inner (bindings self)
            ++ lines_text inner (filters self)
            ++ outer ++ "}" ++ LF).
Proof.
  intros H outer inner. destruct H as [o u g f b v Hg Hf Hb Hv].
  unfold SPARQLGraphPattern_get_text.
  cbn [is_optional is_union graph filters bindings values].
  fold outer. fold inner.
  rewrite add_lines_exact
    by (revert Hv; apply Forall_has_get_text; now intros []).
  cbn [bind]. unfold inner at 1. rewrite graph_loop_exact by assumption.
  cbn [bind]. fold inner.
  rewrite add_lines_exact
    by (revert Hb; apply Forall_has_get_text; now intros []).
  cbn [bind].
  rewrite add_lines_exact
    by (revert Hf; apply Forall_has_get_text; now intros []).
  cbn [bind try_except]. unfold opening_text.
  destruct o, u; now rewrite !append_assoc_r.
Qed.

Lemma built_pattern_layout_witness :
  let child :=
    Build_SPARQLGraphPattern false true [Triple "?x" "ex:q" "?z"] [] [] [] in
  let self :=
    Build_SPARQLGraphPattern false false
      [Triple "?x" "ex:p" "?y"; Pattern child]
      [Filter "?y > 1"; Having "?z < 2"]
      [Binding (PyStr "?y") "?w"]
      [Values ["http://x/1"] "?x"] in
  SPARQLGraphPattern_get_text get_text self 0
  = RStr ("{" ++ LF
            ++ "   VALUES ?x {<http://x/1>}" ++ LF
            ++ "   ?x ex:p ?y . " ++ LF
            ++ "   UNION" ++ LF
            ++ "   {" ++ LF
            ++ "      ?x ex:q ?z . " ++ LF
            ++ "   }" ++ LF
            ++ "   BIND (?y AS ?w)" ++ LF
            ++ "   FILTER (?y > 1)" ++ LF
            ++ "   HAVING (?z < 2)" ++ LF
            ++ "}" ++ LF).
Proof.
  intros child self.
  assert (H : built_pattern self) by (repeat constructor).
  rewrite (built_pattern_layout self 0 H). reflexivity.
Defined.

Lemma add_lines_without_method (inner : string) (xs : list pyobj)
  (x : pyobj) (query_text : string) :
  In x xs -> has_get_text x = false ->
  add_lines get_text inner xs query_text = Raise.
Proof.
  intros Hin Hx. revert query_text.
  induction xs as [|y ys IH]; intros query_text; [now elim Hin|].
  unfold add_lines in *. cbn -[append].
  destruct (get_text y None) as [r|r|] eqn:E; cbn -[append].
  - destruct Hin as [-> | Hin]; [|now apply IH].
    destruct x; discriminate.
  - now elim (get_text_not_Return y None r).
  - reflexivity.
Qed.

(** X6: an object without a [get_text] method (None, a boolean, a number,
    a string, a list) in the values, bindings or filters of a pattern
    makes the pattern render no text at all: the result is the empty
    string, or False if a nested child failed first; in the values it is
    always the empty string. *)
Theorem object_without_get_text_voids_pattern (self : SPARQLGraphPattern)
  (indentation_depth : Z) (x : pyobj) :
  has_get_text x = false ->
  (In x (values self) ->
   SPARQLGraphPattern_get_text get_text self indentation_depth = RStr "")
  /\ (In x (bindings self) \/ In x (filters self) ->
      SPARQLGraphPattern_get_text get_text self indentation_depth = RStr ""
      \/ SPARQLGraphPattern_get_text get_text self indentation_depth
         = RFalse).
Proof.
  intros Hx. unfold SPARQLGraphPattern_get_text.
  set (inner := Py.mul (indentation_depth + 1) "   ").
  match goal with
  | |- context [add_lines get_text inner (values self) ?q0] => set (q := q0)
  end.
  split.
  - intros Hin. now rewrite (add_lines_without_method inner _ x q Hin Hx).
  - intros Hin.
    destruct (add_lines_cases inner (values self) q) as [-> | [l1 ->]];
      [now left|].
    cbn [bind].
    destruct (graph_loop_cases indentation_depth inner (graph self) (q ++ l1))
      as [-> | [l2 ->]]; [now right|].
    cbn [bind]. destruct Hin as [Hin | Hin].
    + rewrite (add_lines_without_method inner _ x _ Hin Hx). now left.
    + destruct (add_lines_cases inner (bindings self) ((q ++ l1) ++ l2))
        as [-> | [l3 ->]]; [now left|].
      cbn [bind].
      rewrite (add_lines_without_method inner _ x _ Hin Hx). now left.
Qed.

Lemma object_without_get_text_voids_pattern_witness :
  SPARQLGraphPattern_get_text get_text
    (Build_SPARQLGraphPattern false false [Triple "?x" "ex:p" "?y"] [] []
       [PyList [PyStr "ex:Ann"; PyStr "ex:Bob"]]) 0
  = RStr "".
Proof.
  apply (proj1 (object_without_get_text_voids_pattern
                  (Build_SPARQLGraphPattern false false
                     [Triple "?x" "ex:p" "?y"] [] []
                     [PyList [PyStr "ex:Ann"; PyStr "ex:Bob"]]) 0
                  (PyList [PyStr "ex:Ann"; PyStr "ex:Bob"]) eq_refl)).
  left. reflexivity.
Defined.

Lemma for_each_app {A B : Type} (body : A -> B -> completion B)
  (l1 l2 : list A) (acc : B) :
  for_each body (l1 ++ l2) acc
  = bind (for_each body l1 acc) (for_each body l2).
Proof.
  revert acc. induction l1 as [|x l1 IH]; intros acc; cbn; [reflexivity|].
  destruct (body x acc); [apply IH | reflexivity | reflexivity].
Qed.

Lemma bind_ext {A B : Type} (c : completion A) (f g : A -> completion B) :
  (forall a, f a = g a) -> bind c f = bind c g.
Proof. intros H. destruct c; cbn; [apply H | reflexivity | reflexivity]. Qed.

(** X7: the loop over the graph handles triples, graph patterns and
    select queries and passes over anything else: an entry of another
    type neither shows in the text nor makes the rendering fail. *)
Theorem other_graph_entries_are_skipped (optional union : bool)
  (before after fs bs vs : list pyobj) (x : pyobj) (indentation_depth : Z) :
  is_Triple x = false -> is_SPARQLGraphPattern x = false ->
  is_SPARQLSelectQuery x = false ->
  SPARQLGraphPattern_get_text get_text
    (Build_SPARQLGraphPattern optional union (before ++ x :: after) fs bs vs)
    indentation_depth
  = SPARQLGraphPattern_get_text get_text
      (Build_SPARQLGraphPattern optional union (before ++ after) fs bs vs)
      indentation_depth.
Proof.
  intros Ht Hp Hs. unfold SPARQLGraphPattern_get_text.
  cbn [graph filters bindings values is_optional is_union].
  f_equal. apply bind_ext. intros q1.
  rewrite !for_each_app.
  destruct (for_each _ before q1) as [q2| |]; cbn [bind]; try reflexivity.
  cbn [for_each].
  assert (E : add_entry get_text indentation_depth
                (Py.mul (indentation_depth + 1) "   ") x q2 = Normal q2)
    by (destruct x; try discriminate; reflexivity).
  now rewrite E.
Qed.

Lemma other_graph_entries_are_skipped_witness :
  SPARQLGraphPattern_get_text get_text
    (Build_SPARQLGraphPattern false false
       [Triple "?x" "ex:p" "?y"; Filter "?y > 1"; Triple "?y" "ex:q" "?z"]
       [] [] []) 0
  = RStr ("{" ++ LF ++ "   ?x ex:p ?y . " ++ LF
              ++ "   ?y ex:q ?z . " ++ LF ++ "}" ++ LF).
Proof.
  etransitivity.
  - apply (other_graph_entries_are_skipped false false
             [Triple "?x" "ex:p" "?y"] [Triple "?y" "ex:q" "?z"] [] [] []
             (Filter "?y > 1") 0); reflexivity.
  - reflexivity.
Defined.

(** ** Terms *)

Lemma startswith_lt_not_http (s : string) :
  Py.startswith s "<" = true -> Py.startswith s "http" = false.
Proof.
  intros H. apply startswith_iff in H. destruct H as [rest ->]. reflexivity.
Qed.

(** X8: [in_brackets] is idempotent, a second pass changes nothing, and
    its result never starts with "http": a wrapped value is not wrapped
    again. *)
Theorem in_brackets_idempotent (uri : string) :
  in_brackets (in_brackets uri) = in_brackets uri
  /\ Py.startswith (in_brackets uri) "http" = false.
Proof.
  unfold in_brackets.
  destruct (Py.startswith uri "<") eqn:Elt.
  - rewrite Elt. split; [reflexivity | now apply startswith_lt_not_http].
  - destruct (Py.startswith uri "http") eqn:Ehttp.
    + assert (E : Py.startswith ("<" ++ uri ++ ">") "<" = true)
        by (apply startswith_iff; now eexists).
      rewrite E. split; [reflexivity | now apply startswith_lt_not_http].
    + now rewrite Elt, Ehttp.
Qed.

Lemma slot_text_cases (x : pyobj) :
  slot_text get_text x
  = if slot_ok x then Normal (slot_string x) else Raise.
Proof.
  unfold slot_string, text_of.
  destruct x; cbn -[append SPARQLGraphPattern_get_text
                      SPARQLSelectQuery_get_text SPARQLUpdateQuery_get_text];
    reflexivity.
Qed.

(** X9: a slot of a Binding, Bound or IfClause renders when it holds a
    string or any object with a [get_text] method; the term then puts the
    slot's text in its frame.  When a slot holds anything else (None, a
    number, a boolean, a list) the term renders to the empty string.  A
    term never answers False and never lets the failure of a nested term
    through: around a nested term that rendered to the empty string it
    still writes its own frame. *)
Theorem term_slots :
  (forall value variable,
      Binding_get_text get_text value variable
      = if slot_ok value
        then RStr ("BIND (" ++ slot_string value ++ " AS " ++ variable ++ ")")
        else RStr "")
  /\ (forall variable,
        Bound_get_text get_text variable
        = if slot_ok variable
          then RStr ("BOUND (" ++ slot_string variable ++ ")")
          else RStr "")
  /\ (forall condition true_value false_value,
        IfClause_get_text get_text condition true_value false_value
        = if slot_ok condition && slot_ok true_value && slot_ok false_value
          then RStr ("IF (" ++ slot_string condition ++ ", "
                       ++ slot_string true_value ++ ", "
                       ++ slot_string false_value ++ ")")
          else RStr "")
  /\ (forall broken variable,
        slot_ok broken = false ->
        get_text (Binding (IfClause broken (PyStr "1") (PyStr "2")) variable)
          None
        = Normal (RStr ("BIND ( AS " ++ variable ++ ")"))).
Proof.
  repeat split.
  - intros. unfold Binding_get_text. rewrite slot_text_cases.
    now destruct (slot_ok value).
  - intros. unfold Bound_get_text. rewrite slot_text_cases.
    now destruct (slot_ok variable).
  - intros. unfold IfClause_get_text. rewrite !slot_text_cases.
    now destruct (slot_ok condition), (slot_ok true_value),
      (slot_ok false_value).
  - intros broken variable H. cbn -[append].
    unfold Binding_get_text. cbn -[append].
    unfold IfClause_get_text. rewrite slot_text_cases, H. reflexivity.
Qed.

Lemma term_slots_witness :
  get_text (Binding (IfClause (PyInt 18) (PyStr "1") (PyStr "2")) "?status")
    None
  = Normal (RStr "BIND ( AS ?status)").
Proof.
  destruct term_slots as (_ & _ & _ & H).
  apply (H (PyInt 18) "?status"). reflexivity.
Defined.

(** ** Queries: failures and the LIMIT line *)

Lemma nonempty_append_l (a b : string) : a <> "" -> a ++ b <> "".
Proof. destruct a; [congruence | discriminate]. Qed.

Lemma nonempty_append_r (a b : string) : b <> "" -> a ++ b <> "".
Proof. destruct a; [trivial | discriminate]. Qed.

Lemma add_prefixes_cases (prefixes : list pyobj) (query_text : string) :
  add_prefixes get_text prefixes query_text = Raise
  \/ exists lines,
      add_prefixes get_text prefixes query_text
      = Normal (query_text ++ lines).
Proof.
  unfold add_prefixes. revert query_text.
  induction prefixes as [|x xs IH]; intros query_text; cbn -[append].
  - right. exists "". now rewrite append_empty_r.
  - destruct (get_text x None) as [[s|]|r|] eqn:E; cbn -[append].
    + destruct (IH (query_text ++ s)) as [-> | [lines ->]]; [now left|].
      right. exists (s ++ lines). now rewrite append_assoc_r.
    + now left.
    + now elim (get_text_not_Return x None r).
    + now left.
Qed.

Lemma add_pattern_cases (d : Z) (pattern : pyobj) (query_text : string) :
  add_pattern get_text d pattern query_text = Raise
  \/ exists text,
      add_pattern get_text d pattern query_text = Normal (query_text ++ text).
Proof.
  unfold add_pattern.
  destruct (get_text pattern (Some d)) as [[s|]|r|] eqn:E; cbn -[append].
  - right. now eexists.
  - now left.
  - now elim (get_text_not_Return pattern (Some d) r).
  - now left.
Qed.

Lemma group_loop_cases (outer : string) (groups : list pyobj)
  (query_text : string) :
  let loop :=
    for_each (fun group query_text =>
                r <- get_text group None ;;
                Normal (query_text ++ LF ++ outer ++ format r)) in
  loop groups query_text = Raise
  \/ exists lines, loop groups query_text = Normal (query_text ++ lines).
Proof.
  cbv zeta. revert query_text.
  induction groups as [|x xs IH]; intros query_text; cbn -[append].
  - right. exists "". now rewrite append_empty_r.
  - destruct (get_text x None) as [r|r|] eqn:E; cbn -[append].
    + destruct (IH (query_text ++ LF ++ outer ++ format r))
        as [-> | [lines ->]]; [now left|].
      right. eexists. now rewrite append_assoc_r.
    + now elim (get_text_not_Return x None r).
    + now left.
Qed.

Lemma select_text_head (self : SPARQLSelectQuery) (d : Z) :
  SPARQLSelectQuery_get_text get_text self d
  = try_except (
      query_text <- select_head self d ;;
      Normal (match SelectQuery.limit self with
              | LimitInt n =>
                  if n =? 0 then query_text
                  else query_text ++ LF ++ "LIMIT " ++ Py.str_of_int n
              | LimitFalse => query_text
              end)).
Proof.
  unfold SPARQLSelectQuery_get_text, select_head.
  destruct (add_prefixes get_text (SelectQuery.prefixes self) "")
    as [q| |]; cbn [bind]; try reflexivity.
  destruct (SelectQuery.where_ self); cbn [bind];
    try match goal with
      | |- context [add_pattern ?c ?d ?w ?t] =>
          destruct (add_pattern c d w t); cbn [bind]
      end;
    try reflexivity;
    match goal with
    | |- context [for_each ?f ?l ?t] => destruct (for_each f l t)
    end; reflexivity.
Qed.

Lemma select_head_cases (self : SPARQLSelectQuery) (d : Z) :
  select_head self d = Raise
  \/ exists query_text,
      select_head self d = Normal query_text /\ query_text <> "".
Proof.
  unfold select_head.
  destruct (add_prefixes_cases (SelectQuery.prefixes self) "")
    as [-> | [l1 ->]]; [now left|].
  cbn [bind].
  match goal with
  | |- context [bind (match SelectQuery.where_ self with _ => _ end) _] =>
      match goal with
      | |- context [add_pattern get_text d (SelectQuery.where_ self) ?q] =>
          assert (Hw : (match SelectQuery.where_ self with
                        | PyNone => Normal q
                        | _ => add_pattern get_text d
                                 (SelectQuery.where_ self) q
                        end) = Raise
                       \/ exists text,
                           (match SelectQuery.where_ self with
                            | PyNone => Normal q
                            | _ => add_pattern get_text d
                                     (SelectQuery.where_ self) q
                            end) = Normal (q ++ text));
          [ destruct (add_pattern_cases d (SelectQuery.where_ self) q)
              as [E | [t E]];
            destruct (SelectQuery.where_ self);
            try (left; exact E); try (right; exists t; exact E);
            right; exists ""; now rewrite append_empty_r
          | set (head := q) in * ]
      end
  end.
  destruct Hw as [-> | [text ->]]; [now left|].
  cbn [bind].
  destruct (group_loop_cases (Py.mul d "   ") (SelectQuery.group_by self)
              (head ++ text)) as [-> | [lines ->]]; [now left|].
  right. eexists. split; [reflexivity|].
  do 2 apply nonempty_append_l. unfold head.
  apply nonempty_append_r. discriminate.
Qed.

(** X10: the LIMIT line of a select query.  A limit of 0 is dropped like
    the default False; any other limit adds, after everything else, a
    line "LIMIT n" that carries no indentation whatever the depth.  The
    method always returns a string, and the empty string in case of
    failure with or without a limit. *)
Theorem select_limit_line (prefixes : list pyobj) (where_ : pyobj)
  (distinct : bool) (variables : list string) (group_by : list pyobj)
  (indentation_depth n : Z) :
  let text limit :=
    SPARQLSelectQuery_get_text get_text
      (Build_SPARQLSelectQuery prefixes where_ distinct limit variables
         group_by) indentation_depth in
  text (LimitInt 0) = text LimitFalse
  /\ text (LimitInt n) <> RFalse
  /\ (n <> 0 ->
      forall s, text LimitFalse = RStr s -> s <> "" ->
      text (LimitInt n) = RStr (s ++ LF ++ "LIMIT " ++ Py.str_of_int n))
  /\ (text LimitFalse = RStr "" -> text (LimitInt n) = RStr "").
Proof.
  intros text. unfold text. rewrite !select_text_head.
  cbn [SelectQuery.limit].
  set (q0 := Build_SPARQLSelectQuery prefixes where_ distinct LimitFalse
               variables group_by).
  assert (Hhead : forall limit,
             select_head (Build_SPARQLSelectQuery prefixes where_ distinct
                            limit variables group_by) indentation_depth
             = select_head q0 indentation_depth) by reflexivity.
  rewrite !Hhead.
  destruct (select_head_cases q0 indentation_depth) as [-> | (q & -> & Hq)];
    cbn [bind try_except].
  - repeat split; try discriminate; try reflexivity.
    intros _ s [= <-] Hs. now elim Hs.
  - repeat split; try discriminate.
    + intros Hn s [= <-] _. apply Z.eqb_neq in Hn. now rewrite Hn.
    + intros [= E]. now elim Hq.
Qed.

Lemma select_limit_line_witness :
  SPARQLSelectQuery_get_text get_text
    (Build_SPARQLSelectQuery [] PyNone false (LimitInt 5) ["?s"] []) 2
  = RStr (LF ++ "      SELECT ?s" ++ LF ++ "      WHERE " ++ LF ++ "LIMIT 5").
Proof.
  destruct (select_limit_line [] PyNone false ["?s"] [] 2 5)
    as (_ & _ & H & _).
  rewrite (H ltac:(discriminate)
             (LF ++ "      SELECT ?s" ++ LF ++ "      WHERE ")
             eq_refl ltac:(discriminate)).
  reflexivity.
Defined.

Lemma add_pattern_False (d : Z) (p : SPARQLGraphPattern)
  (query_text : string) :
  SPARQLGraphPattern_get_text get_text p d = RFalse ->
  add_pattern get_text d (Pattern p) query_text = Raise.
Proof.
  intros H. unfold add_pattern. rewrite get_text_Pattern. cbn [depth_of].
  now rewrite H.
Qed.

(** X11: how a select query takes the failure of its where pattern.  When
    the pattern answers False the whole query renders to the empty
    string.  When the pattern answers the empty string (its own handler
    caught an exception) the query does not fail: its text is the one it
    has with no where pattern set, ending the WHERE line after the token. *)
Theorem select_where_pattern_failure (prefixes : list pyobj)
  (p : SPARQLGraphPattern) (distinct : bool) (limit : py_limit)
  (variables : list string) (group_by : list pyobj) (indentation_depth : Z) :
  let text where_ :=
    SPARQLSelectQuery_get_text get_text
      (Build_SPARQLSelectQuery prefixes where_ distinct limit variables
         group_by) indentation_depth in
  (SPARQLGraphPattern_get_text get_text p indentation_depth = RFalse ->
   text (Pattern p) = RStr "")
  /\ (SPARQLGraphPattern_get_text get_text p indentation_depth = RStr "" ->
      text (Pattern p) = text PyNone).
Proof.
  intros text. unfold text. rewrite !select_text_head. unfold select_head.
  cbn [SelectQuery.prefixes SelectQuery.where_ SelectQuery.distinct
         SelectQuery.limit SelectQuery.variables SelectQuery.group_by].
  destruct (add_prefixes_cases prefixes "") as [-> | [l1 ->]];
    [split; reflexivity|].
  cbn [bind]. split; intros H.
  - now rewrite add_pattern_False.
  - unfold add_pattern. rewrite get_text_Pattern. cbn [depth_of]. rewrite H.
    cbn [bind slice_drop_last Py.drop_last]. now rewrite append_empty_r.
Qed.

Lemma select_where_pattern_failure_witness :
  let broken :=
    Build_SPARQLGraphPattern false false [] [] [] [PyStr "?x"] in
  let outer :=
    Build_SPARQLGraphPattern false false [Pattern broken] [] [] [] in
  let text where_ :=
    SPARQLSelectQuery_get_text get_text
      (Build_SPARQLSelectQuery [Prefix "ex" "http://x#"] where_ false
         LimitFalse ["?x"] []) 0 in
  text (Pattern outer) = RStr ""
  /\ text (Pattern broken)
     = RStr ("PREFIX ex: <http://x#>" ++ LF ++ LF ++ "SELECT ?x" ++ LF
               ++ "WHERE ").
Proof.
  intros broken outer text.
  split.
  - apply (proj1 (select_where_pattern_failure [Prefix "ex" "http://x#"]
                    outer false LimitFalse ["?x"] [] 0)).
    reflexivity.
  - unfold text.
    rewrite (proj2 (select_where_pattern_failure [Prefix "ex" "http://x#"]
                      broken false LimitFalse ["?x"] [] 0) eq_refl).
    reflexivity.
Defined.

Lemma add_section_cases (d : Z) (token : string) (pattern : pyobj)
  (query_text : string) :
  add_section get_text d token pattern query_text = Raise
  \/ exists q, add_section get_text d token pattern query_text = Normal q.
Proof.
  unfold add_section.
  destruct pattern; try (right; now eexists);
    match goal with
    | |- context [add_pattern ?c ?d ?w ?t] =>
        destruct (add_pattern_cases d w t) as [-> | [text ->]];
        [now left | right; now eexists]
    end.
Qed.

(** X12: an update query whose delete, insert or where pattern answers
    False renders to the empty string: no section, not even the prefixes,
    is returned. *)
Theorem update_pattern_failure (self : SPARQLUpdateQuery)
  (p : SPARQLGraphPattern) (indentation_depth : Z) :
  UpdateQuery.delete self = Pattern p
  \/ UpdateQuery.insert self = Pattern p
  \/ UpdateQuery.where_ self = Pattern p ->
  SPARQLGraphPattern_get_text get_text p indentation_depth = RFalse ->
  SPARQLUpdateQuery_get_text get_text self indentation_depth = RStr "".
Proof.
  intros Hslot Hp.
  assert (Hfail : forall token q,
             add_section get_text indentation_depth token (Pattern p) q
             = Raise).
  { intros token q. unfold add_section. now apply add_pattern_False. }
  unfold SPARQLUpdateQuery_get_text.
  destruct (add_prefixes_cases (UpdateQuery.prefixes self) "")
    as [-> | [l1 ->]]; [reflexivity|].
  cbn [bind].
  destruct (add_section_cases indentation_depth "DELETE"
              (UpdateQuery.delete self) ("" ++ l1)) as [-> | [q1 E1]];
    [reflexivity|].
  destruct Hslot as [H | Hslot];
    [rewrite H, Hfail in E1; discriminate|].
  rewrite E1. cbn [bind].
  destruct (add_section_cases indentation_depth "INSERT"
              (UpdateQuery.insert self) q1) as [-> | [q2 E2]];
    [reflexivity|].
  destruct Hslot as [H | H];
    [rewrite H, Hfail in E2; discriminate|].
  rewrite E2. cbn [bind]. now rewrite H, Hfail.
Qed.

Lemma update_pattern_failure_witness :
  let broken :=
    Build_SPARQLGraphPattern false false [] [PyStr "?age > 30"] [] [] in
  let insert_pattern :=
    Build_SPARQLGraphPattern false false
      [Triple "?person" "ex:hasAge" "32"; Pattern broken] [] [] [] in
  let where_pattern :=
    Build_SPARQLGraphPattern false false
      [Triple "?person" "ex:hasAge" "?age"] [] [] [] in
  SPARQLUpdateQuery_get_text get_text
    (Build_SPARQLUpdateQuery [Prefix "ex" "http://x#"] (Pattern where_pattern)
       PyNone (Pattern insert_pattern)) 0
  = RStr "".
Proof.
  intros broken insert_pattern where_pattern.
  apply (update_pattern_failure _ insert_pattern 0).
  - right. left. reflexivity.
  - reflexivity.
Defined.

(** ** The builder of queries *)

(** X13: [add_popular_prefixes] appends the six declarations rdf, rdfs,
    xml, owl, prov and foaf, in this order, after the prefixes a query
    already has and changes nothing else, for a select and for an update
    query; it does not look for duplicates.  An update query that holds
    only prefixes renders to its prefix lines. *)
Theorem add_popular_prefixes_appends :
  (forall q : SPARQLSelectQuery,
      add_popular_prefixes q
      = Build_SPARQLSelectQuery
          (SelectQuery.prefixes q ++ prefix_objects popular_prefixes)
          (SelectQuery.where_ q) (SelectQuery.distinct q)
          (SelectQuery.limit q) (SelectQuery.variables q)
          (SelectQuery.group_by q))
  /\ (forall u : SPARQLUpdateQuery,
        add_popular_prefixes u
        = Build_SPARQLUpdateQuery
            (UpdateQuery.prefixes u ++ prefix_objects popular_prefixes)
            (UpdateQuery.where_ u) (UpdateQuery.delete u)
            (UpdateQuery.insert u))
  /\ (forall decls indentation_depth,
        SPARQLUpdateQuery_get_text get_text
          (add_popular_prefixes
             (add_popular_prefixes
                (Build_SPARQLUpdateQuery (prefix_objects decls) PyNone PyNone
                   PyNone))) indentation_depth
        = RStr (prefix_lines decls ++ prefix_lines popular_prefixes
                  ++ prefix_lines popular_prefixes)).
Proof.
  assert (Hu : forall u : SPARQLUpdateQuery,
             add_popular_prefixes u
             = Build_SPARQLUpdateQuery
                 (UpdateQuery.prefixes u ++ prefix_objects popular_prefixes)
                 (UpdateQuery.where_ u) (UpdateQuery.delete u)
                 (UpdateQuery.insert u)).
  { intros [p w d i]. cbn. now rewrite <- !app_assoc. }
  split; [|split].
  - intros [p w d l v g]. cbn. now rewrite <- !app_assoc.
  - exact Hu.
  - intros decls d. rewrite !Hu.
    cbn [UpdateQuery.prefixes UpdateQuery.where_ UpdateQuery.delete
           UpdateQuery.insert].
    unfold prefix_objects. rewrite <- !map_app. fold (prefix_objects
      ((decls ++ popular_prefixes) ++ popular_prefixes)).
    change PyNone with (slot_obj None).
    rewrite update_text_sections by (intros p [[=] | [[=] | [[=] | []]]]).
    cbn [section_text]. rewrite !append_empty_r.
    f_equal. clear.
    assert (Happ : forall a b, prefix_lines (a ++ b)
                               = prefix_lines a ++ prefix_lines b).
    { induction a as [|x a IH]; intros b; [reflexivity|].
      cbn [app prefix_lines]. rewrite IH. now rewrite !append_assoc_r. }
    now rewrite !Happ, append_assoc_r.
Qed.

Lemma list_of_str_map (names : list string) :
  list_of_str (map PyStr names) = Some names.
Proof.
  induction names as [|s names IH]; [reflexivity|]. cbn. now rewrite IH.
Qed.

Lemma list_of_str_Some (elements : list pyobj) (names : list string) :
  list_of_str elements = Some names -> elements = map PyStr names.
Proof.
  revert names. induction elements as [|x xs IH]; intros names; cbn.
  - now intros [= <-].
  - destruct x; try discriminate.
    destruct (list_of_str xs) as [l|]; [|discriminate].
    intros [= <-]. cbn. now rewrite (IH l eq_refl).
Qed.

(** X14: [add_variables] accepts exactly the lists whose elements are all
    strings, the empty list included, and appends the names in order;
    anything else is refused and the query stays as it was.  Two accepted
    calls amount to one call with the two lists joined. *)
Theorem add_variables_accumulates (self : SPARQLSelectQuery) :
  (forall names,
      add_variables self (PyList (map PyStr names))
      = (Build_SPARQLSelectQuery (SelectQuery.prefixes self)
           (SelectQuery.where_ self) (SelectQuery.distinct self)
           (SelectQuery.limit self) (SelectQuery.variables self ++ names)
           (SelectQuery.group_by self), true))
  /\ (forall x,
        (forall names, x <> PyList (map PyStr names)) ->
        add_variables self x = (self, false))
  /\ (forall first second,
        add_variables
          (fst (add_variables self (PyList (map PyStr first))))
          (PyList (map PyStr second))
        = add_variables self (PyList (map PyStr (first ++ second)))).
Proof.
  assert (Hok : forall q names,
             add_variables q (PyList (map PyStr names))
             = (Build_SPARQLSelectQuery (SelectQuery.prefixes q)
                  (SelectQuery.where_ q) (SelectQuery.distinct q)
                  (SelectQuery.limit q) (SelectQuery.variables q ++ names)
                  (SelectQuery.group_by q), true)).
  { intros q names. unfold add_variables. now rewrite list_of_str_map. }
  split; [apply Hok | split].
  - intros x Hx. unfold add_variables.
    destruct x; try reflexivity.
    destruct (list_of_str items) as [names|] eqn:E; [|reflexivity].
    apply list_of_str_Some in E. subst items. now elim (Hx names).
  - intros first second. rewrite !Hok. cbn. now rewrite app_assoc.
Qed.

Lemma add_variables_accumulates_witness :
  let self := SPARQLSelectQuery_init false LimitFalse false in
  add_variables self (PyList [PyStr "?person"; PyInt 3]) = (self, false)
  /\ add_variables self (PyStr "?person") = (self, false).
Proof.
  intros self.
  destruct (add_variables_accumulates self) as (_ & Hrefuse & _).
  split; apply Hrefuse.
  - intros [|a [|b [|c names]]]; discriminate.
  - intros names. discriminate.
Defined.



Lemma group_loop_exact (outer : string) (groups : list (list string))
  (query_text : string) :
  for_each (fun group query_text =>
              r <- get_text group None ;;
              Normal (query_text ++ LF ++ outer ++ format r))
           (map GroupBy groups) query_text
  = Normal (query_text ++ group_lines outer groups).
Proof.
  revert query_text.
  induction groups as [|g groups IH]; intros query_text.
  - cbn. now rewrite append_empty_r.
  - cbn -[append]. rewrite IH. now rewrite !append_assoc_r.
Qed.

(** X16: the text of a select query with any number of prefixes,
    variables and GROUP BY clauses: the prefix lines; a line break and, at
    the outer indentation, "SELECT ", "DISTINCT " if asked for, and the
    variables separated by spaces, or " *" when there is none; on the
    next line at the outer indentation "WHERE " and, if a where pattern
    is set, its text without the final character; one line per GROUP BY
    clause at the outer indentation; the LIMIT line, not indented.  The
    where pattern is taken not to answer False. *)
Theorem select_query_text (decls : list (string * string))
  (where_ : option SPARQLGraphPattern) (distinct : bool) (limit : py_limit)
  (variables : list string) (groups : list (list string))
  (indentation_depth : Z) :
  (forall p, where_ = Some p ->
     SPARQLGraphPattern_get_text get_text p indentation_depth <> RFalse) ->
  let outer := Py.mul indentation_depth "   " in
  SPARQLSelectQuery_get_text get_text
    (Build_SPARQLSelectQuery (prefix_objects decls) (slot_obj where_)
       distinct limit variables (map GroupBy groups)) indentation_depth
  = RStr (prefix_lines decls
            ++ LF ++ outer ++ "SELECT "
            ++ (if distinct then "DISTINCT " else "")
            ++ match variables with
               | [] => " *"
               | _ :: _ => Py.join " " variables
               end
            ++ LF ++ outer ++ "WHERE "
            ++ match where_ with
               | None => ""
               | Some p =>
                   Py.drop_last
                     (format (SPARQLGraphPattern_get_text get_text p
                                indentation_depth))
               end
            ++ group_lines outer groups
            ++ limit_line limit).
Proof.
  intros H outer. rewrite select_text_head. unfold select_head.
  cbn [SelectQuery.prefixes SelectQuery.where_ SelectQuery.distinct
         SelectQuery.limit SelectQuery.variables SelectQuery.group_by].
  rewrite add_prefixes_prefix_objects. fold outer. cbn [bind].
  destruct where_ as [p|]; cbn [slot_obj].
  - rewrite add_pattern_Pattern by now apply H.
    cbn [bind]. rewrite group_loop_exact. cbn [bind try_except].
    unfold limit_line.
    destruct variables, distinct, limit as [|n]; try destruct (n =? 0);
      now rewrite ?append_empty_r, !append_assoc_r.
  - cbn [bind]. rewrite group_loop_exact. cbn [bind try_except].
    unfold limit_line.
    destruct variables, distinct, limit as [|n]; try destruct (n =? 0);
      now rewrite ?append_empty_r, !append_assoc_r.
Qed.

Lemma select_query_text_witness :
  let where_pattern :=
    Build_SPARQLGraphPattern false false
      [Triple "?s" "ex:p" "?o"] [] [] [] in
  SPARQLSelectQuery_get_text get_text
    (Build_SPARQLSelectQuery
       (prefix_objects [("ex", "http://x#"); ("foaf", "http://f/")])
       (Pattern where_pattern) false (LimitInt 10) ["?s"; "?o"; "?n"]
       (map GroupBy [["?s"]; ["?o"; "?n"]])) 1
  = RStr ("PREFIX ex: <http://x#>" ++ LF
            ++ "PREFIX foaf: <http://f/>" ++ LF
            ++ LF ++ "   SELECT ?s ?o ?n"
            ++ LF ++ "   WHERE    {" ++ LF
            ++ "      ?s ex:p ?o . " ++ LF
            ++ "   }"
            ++ LF ++ "   GROUP BY ?s"
            ++ LF ++ "   GROUP BY ?o ?n"
            ++ LF ++ "LIMIT 10").
Proof.
  intros where_pattern.
  etransitivity.
  - apply (select_query_text [("ex", "http://x#"); ("foaf", "http://f/")]
             (Some where_pattern) false (LimitInt 10) ["?s"; "?o"; "?n"]
             [["?s"]; ["?o"; "?n"]] 1).
    intros p [= <-]. discriminate.
  - reflexivity.
Defined.

(** ** Failure at any depth *)

Lemma falsy_child_voids_parent (self child : SPARQLGraphPattern) (d : Z) :
  In (Pattern child) (graph self) ->
  falsy (SPARQLGraphPattern_get_text get_text child (d + 1)) ->
  falsy (SPARQLGraphPattern_get_text get_text self d).
Proof.
  intros Hin Hchild. unfold SPARQLGraphPattern_get_text.
  match goal with
  | |- context [add_lines get_text ?inner (values self) ?q0] =>
      destruct (add_lines_cases inner (values self) q0) as [-> | [lines ->]]
  end; [reflexivity|].
  cbn [bind].
  rewrite (graph_loop_falsy_child _ _ _ (Pattern child) _ Hin);
    [reflexivity|].
  left. now exists child.
Qed.

(** X18: a failure is not lost on the way up: when a pattern nested at any
    depth, through any number of graph patterns, renders to False or to
    the empty string, so does the outermost pattern. *)
Theorem failure_reaches_the_root (c p : SPARQLGraphPattern) (dc d : Z) :
  nested_at c dc p d ->
  falsy (SPARQLGraphPattern_get_text get_text c dc) ->
  falsy (SPARQLGraphPattern_get_text get_text p d).
Proof.
  intros Hnested Hc.
  induction Hnested as [| p d mid Hin _ IH]; [exact Hc|].
  now apply (falsy_child_voids_parent p mid d Hin).
Qed.

Lemma failure_reaches_the_root_witness :
  let broken :=
    Build_SPARQLGraphPattern false false [] [] [PyInt 7] [] in
  let middle :=
    Build_SPARQLGraphPattern true false
      [Triple "?a" "ex:p" "?b"; Pattern broken] [] [] [] in
  let root :=
    Build_SPARQLGraphPattern false false
      [Pattern middle; Triple "?b" "ex:q" "?c"] [] [] [] in
  falsy (SPARQLGraphPattern_get_text get_text root 0).
Proof.
  intros broken middle root.
  apply (failure_reaches_the_root broken root 2 0).
  - apply (nested_deeper _ _ root 0 middle); [left; reflexivity|].
    apply (nested_deeper _ _ middle (0 + 1) broken);
      [right; left; reflexivity|].
    apply nested_here.
  - reflexivity.
Defined.
